(** * tab_stats.py: domain statistics of browser tabs

    A shallow embedding of [skills/browser-tab-organizer/scripts/tab_stats.py]
    and of the parts of the Python standard library it calls
    ([urllib.parse.urlparse], [collections.Counter], [sorted], [str.format]),
    followed by the properties of the pipeline
    Loader -> Domain Extractor -> Aggregator -> Reporter.

    Conventions.
    - A Python [str] is the list of its code points ([pystr]); [len] is
      [length].
    - A raised exception is the [Raise] branch of [result]; only the class of
      an exception raised after loading is kept, since nothing prints it.
    - The file system and the two library tables that cannot be computed here
      (Unicode NFKC normalisation, [ipaddress.ip_address]) are read from a
      [filesystem] and a [runtime] record.
    - Standard output is a UTF-8 text stream with the strict error handler,
      Python's default: [print] raises [UnicodeEncodeError] on a text that
      holds a surrogate code point and writes nothing of it. *)

From Stdlib Require Import Ascii String DecimalString SpecFloat.
From Stdlib Require Import ZArith NArith Bool List Lia Sorted Permutation.
Import ListNotations.

Set Implicit Arguments.
Set Warnings "-register-all".

(* ===================================================================== *)
(** ** Python values *)
(* ===================================================================== *)

Module Py.

(** A code point, and a [str] as the sequence of its code points. *)
Definition char := N.
Definition pystr := list char.

Definition ch (a : ascii) : char := N_of_ascii a.
Definition lit (s : string) : pystr := map N_of_ascii (list_ascii_of_string s).

Arguments ch a%_char.
Arguments lit s%_string.

Definition str_eqb (a b : pystr) : bool :=
  if list_eq_dec N.eq_dec a b then true else false.

(** [c in s] for a one-character [c]. *)
Definition char_in (c : char) (s : pystr) : bool := existsb (N.eqb c) s.

(** [s.startswith(p)]. *)
Fixpoint startswith (p s : pystr) : bool :=
  match p, s with
  | [], _ => true
  | _ :: _, [] => false
  | c :: p', d :: s' => N.eqb c d && startswith p' s'
  end.

(** [sub in s]: substring test. *)
Fixpoint str_contains (sub s : pystr) : bool :=
  startswith sub s ||
  match s with
  | [] => false
  | _ :: s' => str_contains sub s'
  end.

(** [s.find(c)] for a one-character [c]; [None] stands for Python's [-1]. *)
Fixpoint find (c : char) (s : pystr) : option nat :=
  match s with
  | [] => None
  | d :: s' => if N.eqb c d then Some 0 else option_map S (find c s')
  end.

(** [s.find(c, start)] with [start <= len(s)]. *)
Definition find_from (c : char) (start : nat) (s : pystr) : option nat :=
  option_map (Nat.add start) (find c (skipn start s)).

(** [s[a:b]] for [0 <= a] and [0 <= b]. *)
Definition slice (s : pystr) (a b : nat) : pystr := firstn (b - a) (skipn a s).

(** [s.replace(c, "")]. *)
Definition remove_char (c : char) (s : pystr) : pystr :=
  filter (fun d => negb (N.eqb c d)) s.

(** [s.lstrip(chars)], the set [chars] given by its membership test. *)
Fixpoint lstrip (inset : char -> bool) (s : pystr) : pystr :=
  match s with
  | [] => []
  | c :: s' => if inset c then lstrip inset s' else s
  end.

(** [s.partition(c)]: text before the first [c], whether [c] was found, text
    after it. *)
Fixpoint partition (c : char) (s : pystr) : pystr * bool * pystr :=
  match s with
  | [] => ([], false, [])
  | d :: s' =>
      if N.eqb c d then ([], true, s')
      else let '(before, found, after) := partition c s' in
           (d :: before, found, after)
  end.

(** [s.rpartition(c)[2]]: text after the last [c], the whole of [s] when there
    is none. *)
Fixpoint after_last (c : char) (s : pystr) : pystr :=
  match s with
  | [] => []
  | d :: s' =>
      if char_in c s' then after_last c s'
      else if N.eqb c d then s' else s
  end.

(** [s.isascii()]. *)
Definition isascii (s : pystr) : bool := forallb (fun c => N.ltb c 128) s.

(** A surrogate code point, U+D800 to U+DFFF: the one kind of code point of
    a [str] that UTF-8 does not encode. *)
Definition is_surrogate (c : char) : bool := N.leb 55296 c && N.leb c 57343.

(** [s.encode('utf-8', 'strict')] succeeds. *)
Definition encodable (s : pystr) : bool :=
  forallb (fun c => negb (is_surrogate c)) s.

(** [c.isascii() and c.isalpha()] for a character [c]. *)
Definition is_ascii_alpha (c : char) : bool :=
  (N.leb 65 c && N.leb c 90) || (N.leb 97 c && N.leb c 122).

(** [format(s, '<w')] for a [str]: left-justified in a field of at least [w]
    characters, padded with spaces. *)
Definition ljust (w : nat) (s : pystr) : pystr :=
  s ++ repeat (ch " ") (w - length s).

(** [str(z)] for an [int]. *)
Definition str_of_int (z : Z) : pystr :=
  map N_of_ascii (list_ascii_of_string (NilZero.string_of_int (Z.to_int z))).

(** Exception classes raised by the code after loading. *)
Inductive exception : Type :=
| TypeError
| AttributeError
| ValueError
| KeyError
| UnicodeEncodeError.

Inductive result (A : Type) : Type :=
| Ok (a : A)
| Raise (e : exception).

Arguments Ok {A} a.
Arguments Raise {A} e.

Definition bind {A B : Type} (r : result A) (k : A -> result B) : result B :=
  match r with
  | Ok a => k a
  | Raise e => Raise e
  end.

(** A value as [json.load] builds it: [None], [bool], [int], [float], [str],
    [list], and [dict] as its items in insertion order (keys are distinct). *)
Inductive json : Type :=
| JNull
| JBool (b : bool)
| JInt (z : Z)
| JFloat (f : spec_float)
| JStr (s : pystr)
| JList (l : list json)
| JDict (items : list (pystr * json)).

(** [bool(v)]. *)
Definition truthy (v : json) : bool :=
  match v with
  | JNull => false
  | JBool b => b
  | JInt z => negb (Z.eqb z 0)
  | JFloat (S754_zero _) => false
  | JFloat _ => true
  | JStr s => negb (Nat.eqb (length s) 0)
  | JList l => negb (Nat.eqb (length l) 0)
  | JDict items => negb (Nat.eqb (length items) 0)
  end.

(** [d.get(k)] on the items of a dict. *)
Fixpoint dict_lookup (k : pystr) (items : list (pystr * json)) : option json :=
  match items with
  | [] => None
  | (k', v) :: items' => if str_eqb k k' then Some v else dict_lookup k items'
  end.

(** [iter(v)] run to the end: the elements of a list, the keys of a dict, the
    characters of a str; the other values are not iterable. *)
Definition iterate (v : json) : result (list json) :=
  match v with
  | JList l => Ok l
  | JDict items => Ok (map (fun kv => JStr (fst kv)) items)
  | JStr s => Ok (map (fun c => JStr [c]) s)
  | _ => Raise TypeError
  end.

(** [k in v] for a str [k]: key test on a dict, element equality on a list,
    substring test on a str; the other values are not containers. *)
Definition contains (k : pystr) (v : json) : result bool :=
  match v with
  | JDict items => Ok (existsb (fun kv => str_eqb k (fst kv)) items)
  | JList l =>
      Ok (existsb (fun x => match x with JStr s => str_eqb k s | _ => false end) l)
  | JStr s => Ok (str_contains k s)
  | _ => Raise TypeError
  end.

(** [v[k]] for a str [k]: only a dict accepts a str subscript. *)
Definition getitem (v : json) (k : pystr) : result json :=
  match v with
  | JDict items =>
      match dict_lookup k items with
      | Some x => Ok x
      | None => Raise KeyError
      end
  | _ => Raise TypeError
  end.

End Py.

Export Py.

Notation "x <- r ;; k" := (Py.bind r (fun x => k))
  (at level 61, r at next level, right associativity).

(* ===================================================================== *)
(** ** urllib.parse: the authority of a URL *)
(* ===================================================================== *)

(** The statements of [urlsplit] and of its helpers that decide [netloc] and
    whether the call raises, as in CPython 3.11. *)

Module UrlParse.

Inductive ip_version : Type := IPv4 | IPv6.

(** The two library tables the checks of [urlsplit] consult. *)
Record runtime : Type := {
  (** [unicodedata.normalize('NFKC', s)] *)
  nfkc : pystr -> pystr;
  (** [ipaddress.ip_address(s)]: the class of the address, [None] when the
      call raises [ValueError] *)
  ip_address : pystr -> option ip_version
}.

(** [scheme_chars] *)
Definition scheme_chars : pystr :=
  lit "abcdefghijklmnopqrstuvwxyzABCDEFGHIJKLMNOPQRSTUVWXYZ0123456789+-.".

(** Membership in [_WHATWG_C0_CONTROL_OR_SPACE]: U+0000 to U+0020. *)
Definition c0_control_or_space (c : char) : bool := N.leb c 32.

(** [_UNSAFE_URL_BYTES_TO_REMOVE]: tab, carriage return, line feed. *)
Definition unsafe_url_bytes_to_remove : list char := [9; 13; 10]%N.

(** The first statements of [urlsplit]: leading controls and spaces are
    stripped, then the three unsafe characters are removed everywhere. *)
Definition sanitize (url : pystr) : pystr :=
  fold_left (fun u b => remove_char b u) unsafe_url_bytes_to_remove
            (lstrip c0_control_or_space url).

(** The scheme test of [urlsplit]: when the text before the first [':'] is a
    non-empty run of scheme characters that starts with an ASCII letter, the
    scheme and the colon are cut off. *)
Definition drop_scheme (url : pystr) : pystr :=
  match find (ch ":") url with
  | Some i =>
      if Nat.ltb 0 i
         && is_ascii_alpha (nth 0 url 0%N)
         && forallb (fun c => char_in c scheme_chars) (firstn i url)
      then skipn (i + 1) url
      else url
  | None => url
  end.

(** [_splitnetloc(url, 2)[0]]: the text from index 2 up to the first of
    ['/'], ['?'], ['#'], or to the end. *)
Definition splitnetloc (url : pystr) : pystr :=
  let delim :=
    fold_left
      (fun delim c =>
         match find_from c 2 url with
         | Some wdelim => Nat.min delim wdelim
         | None => delim
         end)
      [ch "/"; ch "?"; ch "#"] (length url) in
  slice url 2 delim.

(** The value [urlsplit] gives to [netloc] before any check. *)
Definition authority (url : pystr) : pystr :=
  let url1 := drop_scheme (sanitize url) in
  if str_eqb (firstn 2 url1) (lit "//") then splitnetloc url1 else [].

Definition is_hex_digit (c : char) : bool :=
  (N.leb 48 c && N.leb c 57) || (N.leb 65 c && N.leb c 70)
  || (N.leb 97 c && N.leb c 102).

(** [re.match(r"\Av[a-fA-F0-9]+\..+\Z", hostname)] for a hostname that starts
    with ['v'], [rest] being the text after the ['v']: one or more hexadecimal
    digits, a dot, then one or more characters other than a line feed, up to
    the end. *)
Definition ipvfuture_rest_ok (rest : pystr) : bool :=
  let after_digits := lstrip is_hex_digit rest in
  match after_digits with
  | dot :: tail =>
      Nat.ltb (length after_digits) (length rest)
      && N.eqb dot (ch ".")
      && Nat.ltb 0 (length tail)
      && negb (char_in 10%N tail)
  | [] => false
  end.

(** [_check_bracketed_host]: [true] when it returns, [false] when it raises
    [ValueError]. A hostname that starts with ['v'] must match the IPvFuture
    pattern; any other must be an address, and not an IPv4 one. *)
Definition check_bracketed_host (rt : runtime) (hostname : pystr) : bool :=
  if startswith (lit "v") hostname then ipvfuture_rest_ok (skipn 1 hostname)
  else
    match ip_address rt hostname with
    | None => false
    | Some IPv4 => false
    | Some IPv6 => true
    end.

(** [_check_bracketed_netloc]: [true] when it returns, [false] when it raises
    [ValueError]. *)
Definition check_bracketed_netloc (rt : runtime) (netloc : pystr) : bool :=
  let hostname_and_port := after_last (ch "@") netloc in
  let '(before_bracket, have_open_br, bracketed) :=
    partition (ch "[") hostname_and_port in
  if have_open_br then
    if negb (Nat.eqb (length before_bracket) 0) then false
    else
      let '(hostname, _, port) := partition (ch "]") bracketed in
      if negb (Nat.eqb (length port) 0) && negb (startswith (lit ":") port)
      then false
      else check_bracketed_host rt hostname
  else
    let '(hostname, _, _) := partition (ch ":") hostname_and_port in
    check_bracketed_host rt hostname.

(** [_checknetloc]: [true] when it returns, [false] when it raises
    [ValueError]. *)
Definition checknetloc (rt : runtime) (netloc : pystr) : bool :=
  if Nat.eqb (length netloc) 0 || isascii netloc then true
  else
    let n :=
      fold_left (fun n c => remove_char c n)
                [ch "@"; ch ":"; ch "#"; ch "?"] netloc in
    let netloc2 := nfkc rt n in
    if str_eqb n netloc2 then true
    else negb (existsb (fun c => char_in c netloc2)
                       [ch "/"; ch "?"; ch "#"; ch "@"; ch ":"]).

(** [urlsplit(url).netloc] for a str [url]: the three places where [urlsplit]
    raises, in its order (the fragment and the query are split off in between
    without touching [netloc]). *)
Definition urlsplit_netloc (rt : runtime) (url : pystr) : result pystr :=
  let netloc := authority url in
  let has_open := char_in (ch "[") netloc in
  let has_close := char_in (ch "]") netloc in
  if (has_open && negb has_close) || (has_close && negb has_open)
  then Raise ValueError
  else if has_open && has_close && negb (check_bracketed_netloc rt netloc)
  then Raise ValueError
  else if negb (checknetloc rt netloc) then Raise ValueError
  else Ok netloc.

End UrlParse.

Export UrlParse.

(* ===================================================================== *)
(** ** Domain Extractor *)
(* ===================================================================== *)

(** What [urlparse(v).netloc] can be: a [str], or [bytes] when the argument
    was not a [str]. *)
Inductive domain : Type :=
| DStr (s : pystr)
| DBytes (b : list N).

Definition domain_eq_dec (a b : domain) : {a = b} + {a <> b}.
Proof. decide equality; apply (list_eq_dec N.eq_dec). Defined.

Definition domain_eqb (a b : domain) : bool :=
  if domain_eq_dec a b then true else false.

(** [s.encode('ascii', 'strict')] *)
Definition encode_ascii (s : pystr) : result (list N) :=
  if isascii s then Ok s else Raise UnicodeEncodeError.

(** [urlparse(v).netloc]. A [str] goes to [urlsplit] as it is. For any other
    value [_coerce_args] calls [_decode_args], which replaces a false value by
    [''] and calls [.decode] on a true one (no value of [json.load] has that
    attribute); the result is then encoded to [bytes]. *)
Definition urlparse_netloc (rt : runtime) (v : json) : result domain :=
  match v with
  | JStr s => n <- urlsplit_netloc rt s ;; Ok (DStr n)
  | _ =>
      if truthy v then Raise AttributeError
      else n <- urlsplit_netloc rt [] ;; b <- encode_ascii n ;; Ok (DBytes b)
  end.

Definition url_key : pystr := lit "url".

(** [[urlparse(t['url']).netloc for t in ts if 'url' in t]] over the elements
    [ts] already drawn from the iterator. *)
Fixpoint comprehension (rt : runtime) (ts : list json) : result (list domain) :=
  match ts with
  | [] => Ok []
  | t :: ts' =>
      has_url <- contains url_key t ;;
      if has_url then
        v <- getitem t url_key ;;
        d <- urlparse_netloc rt v ;;
        ds <- comprehension rt ts' ;;
        Ok (d :: ds)
      else comprehension rt ts'
  end.

(** [domains = [urlparse(t['url']).netloc for t in tabs if 'url' in t]] *)
Definition extract_domains (rt : runtime) (tabs : json) : result (list domain) :=
  ts <- iterate tabs ;; comprehension rt ts.

(* ===================================================================== *)
(** ** Aggregator: collections.Counter and most_common *)
(* ===================================================================== *)

(** A [Counter] is a [dict]: its items in insertion order. *)
Definition counter : Type := list (domain * Z).

(** [mapping.get(k, default)] *)
Fixpoint dict_get (mapping : counter) (k : domain) (default : Z) : Z :=
  match mapping with
  | [] => default
  | (k', v) :: rest => if domain_eqb k k' then v else dict_get rest k default
  end.

(** [mapping[k] = v]: a present key keeps its place, a new key goes last. *)
Fixpoint dict_setitem (mapping : counter) (k : domain) (v : Z) : counter :=
  match mapping with
  | [] => [(k, v)]
  | (k', v') :: rest =>
      if domain_eqb k k' then (k', v) :: rest
      else (k', v') :: dict_setitem rest k v
  end.

(** [_count_elements(mapping, iterable)] *)
Definition count_elements (mapping : counter) (iterable : list domain) : counter :=
  fold_left (fun m elem => dict_setitem m elem (dict_get m elem 0 + 1)%Z)
            iterable mapping.

(** [Counter(iterable)] *)
Definition Counter (iterable : list domain) : counter :=
  count_elements [] iterable.

Section Sorting.

Variable A : Type.
Variable key : A -> Z.

(** One step of a stable ascending sort: [x], which stood before every element
    of [l], is put before the first element whose key is not smaller. *)
Fixpoint insert (x : A) (l : list A) : list A :=
  match l with
  | [] => [x]
  | y :: l' => if (key x <=? key y)%Z then x :: l else y :: insert x l'
  end.

Definition stable_sort (l : list A) : list A := fold_right insert [] l.

(** [sorted(l, key=key, reverse=reverse)]. [list.sort] is stable; with
    [reverse=True] it reverses the list, sorts it ascending and reverses the
    result, so that equal keys keep their order. *)
Definition sorted (l : list A) (reverse : bool) : list A :=
  if reverse then rev (stable_sort (rev l)) else stable_sort l.

End Sorting.

(** [c.most_common()]: [sorted(c.items(), key=itemgetter(1), reverse=True)] *)
Definition most_common (c : counter) : list (domain * Z) :=
  sorted (@snd domain Z) c true.

(* ===================================================================== *)
(** ** Reporter and main *)
(* ===================================================================== *)

(** [format(domain, '<40')]: [bytes] has no format specification. *)
Definition format_domain (d : domain) : result pystr :=
  match d with
  | DStr s => Ok (ljust 40 s)
  | DBytes _ => Raise TypeError
  end.

(** [f"{domain:<40} | {count:<10}"] *)
Definition format_row (d : domain) (count : Z) : result pystr :=
  field <- format_domain d ;;
  Ok (field ++ lit " | " ++ ljust 10 (str_of_int count)).

(** [f"{'Domain':<40} | {'Count':<10}"] *)
Definition header : pystr :=
  ljust 40 (lit "Domain") ++ lit " | " ++ ljust 10 (lit "Count").

(** ["-" * 53] *)
Definition separator : pystr := repeat (ch "-") 53.

(** The files main can see: [os.path.exists(p)], and the outcome of
    [with open(p, 'r') as f: json.load(f)], which is [inl (str(e))] for a
    raised [Exception] [e] and [inr v] for the parsed value [v]. The message
    of such an exception holds no surrogate: it is made of fixed ASCII texts,
    of numbers, and of a file name or an offending character passed through
    [repr], which escapes surrogates. *)
Record filesystem : Type := {
  path_exists : pystr -> bool;
  json_load : pystr -> pystr + json;
  json_load_message :
    forall p msg, json_load p = inl msg -> encodable msg = true
}.

(** What a run does to the outside. *)
Inductive event : Type :=
| EvExists (path : pystr)
| EvLoad (path : pystr)
| EvPrint (text : pystr).

(** A computation that leaves a trace of events and returns or raises. *)
Definition io (A : Type) : Type := list event * result A.

Definition io_bind {A B : Type} (m : io A) (k : A -> io B) : io B :=
  match m with
  | (tr, Ok a) => let (tr', r) := k a in (tr ++ tr', r)
  | (tr, Raise e) => (tr, Raise e)
  end.

Notation "x <~ m ;; k" := (io_bind m (fun x => k))
  (at level 61, m at next level, right associativity).

Definition lift {A : Type} (r : result A) : io A := ([], r).

(** [print(text)]: the text is encoded whole before anything is written, so
    a text that cannot be encoded raises and leaves no output. *)
Definition print (text : pystr) : io unit :=
  if encodable text then ([EvPrint text], Ok tt)
  else ([], Raise UnicodeEncodeError).

Definition os_path_exists (fs : filesystem) (p : pystr) : io bool :=
  ([EvExists p], Ok (path_exists fs p)).
Definition load (fs : filesystem) (p : pystr) : io (pystr + json) :=
  ([EvLoad p], Ok (json_load fs p)).

(** [for x in l: body(x)] *)
Fixpoint for_each {A : Type} (l : list A) (body : A -> io unit) : io unit :=
  match l with
  | [] => ([], Ok tt)
  | x :: l' => _ <~ body x ;; for_each l' body
  end.

(** The loop of the Reporter over [stats[:30]]. *)
Definition print_rows (stats : list (domain * Z)) : io unit :=
  for_each (firstn 30 stats)
           (fun entry => row <~ lift (format_row (fst entry) (snd entry)) ;;
                         print row).

(** [main(json_path)] *)
Definition main (rt : runtime) (fs : filesystem) (json_path : pystr) : io unit :=
  found <~ os_path_exists fs json_path ;;
  if negb found then
    print (lit "Error: File " ++ json_path ++ lit " not found.")
  else
    loaded <~ load fs json_path ;;
    match loaded with
    | inl e => print (lit "Error reading JSON: " ++ e)
    | inr tabs =>
        domains <~ lift (extract_domains rt tabs) ;;
        let stats := most_common (Counter domains) in
        _ <~ print header ;;
        _ <~ print separator ;;
        print_rows stats
    end.

(** The texts printed, in order, one per call of [print]. *)
Definition stdout {A : Type} (r : io A) : list pystr :=
  flat_map (fun ev => match ev with EvPrint t => [t] | _ => [] end) (fst r).

(** The paths opened for reading. *)
Definition files_read {A : Type} (r : io A) : list pystr :=
  flat_map (fun ev => match ev with EvLoad p => [p] | _ => [] end) (fst r).

Definition outcome {A : Type} (r : io A) : result A := snd r.

(* ===================================================================== *)
(** ** The script *)
(* ===================================================================== *)

(** ["Usage: python3 tab_stats.py <path_to_json>"] *)
Definition usage : pystr := lit "Usage: python3 tab_stats.py <path_to_json>".

(** The statements under [if __name__ == "__main__"], on [sys.argv]. Index 1
    is read only when [len(sys.argv) >= 2], so [sys.argv[1]] is there. *)
Definition script (rt : runtime) (fs : filesystem) (argv : list pystr) : io unit :=
  if Nat.ltb (length argv) 2 then print usage
  else main rt fs (nth 1 argv []).

(* ===================================================================== *)
(** ** Vocabulary of the specification *)
(* ===================================================================== *)

(** The Ranking of a domain sequence. *)
Definition ranking_of (domains : list domain) : list (domain * Z) :=
  most_common (Counter domains).

(** Position of the first occurrence of [d] in [l] ([length l] when absent). *)
Fixpoint first_index (d : domain) (l : list domain) : nat :=
  match l with
  | [] => 0
  | x :: l' => if domain_eqb d x then 0 else S (first_index d l')
  end.

(** Sum of the counts of a Frequency Table. *)
Definition sum_counts (c : counter) : Z := fold_right Z.add 0%Z (map snd c).

(** A record (a mapping) that has a [url] key. *)
Definition has_url_key (t : json) : bool :=
  match t with
  | JDict items => existsb (fun kv => str_eqb url_key (fst kv)) items
  | _ => false
  end.

(** A record of a well-typed input: a mapping whose [url] value, when
    present, is a string. *)
Definition well_typed_record (t : json) : bool :=
  match t with
  | JDict items =>
      match dict_lookup url_key items with
      | None | Some (JStr _) => true
      | Some _ => false
      end
  | _ => false
  end.

(** A record that is a mapping without a [url] key. *)
Definition record_without_url (t : json) : bool :=
  match t with
  | JDict items => negb (existsb (fun kv => str_eqb url_key (fst kv)) items)
  | _ => false
  end.

(** The [url] string of the record, when it has one, is accepted by
    [urlsplit]. *)
Definition url_accepted (rt : runtime) (t : json) : bool :=
  match t with
  | JDict items =>
      match dict_lookup url_key items with
      | Some (JStr s) =>
          match urlsplit_netloc rt s with Ok _ => true | Raise _ => false end
      | _ => true
      end
  | _ => true
  end.

(** An ASCII character other than a square bracket. *)
Definition plain_char (c : char) : bool :=
  N.ltb c 128 && negb (N.eqb c (ch "[")) && negb (N.eqb c (ch "]")).

Definition is_str (d : domain) : bool :=
  match d with DStr _ => true | DBytes _ => false end.

(** The data rows of a run: what is printed after the header and the
    separator. *)
Definition data_rows {A : Type} (r : io A) : list pystr := skipn 2 (stdout r).

(** A statement that holds whatever the two library tables are. *)
Definition on_every_runtime (P : runtime -> Prop) : Prop := forall rt, P rt.

(** The [url] string of the record, when it has one, holds no surrogate. *)
Definition url_encodable (t : json) : bool :=
  match t with
  | JDict items =>
      match dict_lookup url_key items with
      | Some (JStr s) => encodable s
      | _ => true
      end
  | _ => true
  end.

(** A domain that standard output can show: a [str] without surrogate. *)
Definition printable (d : domain) : bool :=
  match d with DStr s => encodable s | DBytes _ => false end.

(** The Loader fails: the path does not exist, or it exists and opening,
    reading or parsing the file raised. *)
Definition loader_fails (fs : filesystem) (p : pystr) : Prop :=
  path_exists fs p = false
  \/ (path_exists fs p = true /\ exists msg, json_load fs p = inl msg).

(** The inputs on which nothing raises past the Loader's handlers: a missing
    path that standard output can encode, a file that fails to load, or a
    file that holds a sequence of well-typed records whose [url] strings
    [urlsplit] accepts and standard output can encode. *)
Definition handled (rt : runtime) (fs : filesystem) (p : pystr) : Prop :=
  (path_exists fs p = false /\ encodable p = true)
  \/ (path_exists fs p = true /\ exists msg, json_load fs p = inl msg)
  \/ (path_exists fs p = true
      /\ exists records,
           json_load fs p = inr (JList records)
           /\ forallb well_typed_record records = true
           /\ forallb (url_accepted rt) records = true
           /\ forallb url_encodable records = true).

(** The statements of main after the Loader, on the loaded value [tabs]. *)
Definition table_stage (rt : runtime) (tabs : json) : io unit :=
  domains <~ lift (extract_domains rt tabs) ;;
  let stats := most_common (Counter domains) in
  _ <~ print header ;;
  _ <~ print separator ;;
  print_rows stats.

(** The rows the Reporter prints for a list of entries, and how its loop
    ends: it stops at the first entry whose domain cannot be formatted or
    whose row cannot be encoded. *)
Fixpoint rows_of (entries : list (domain * Z)) : list pystr * result unit :=
  match entries with
  | [] => ([], Ok tt)
  | e :: rest =>
      match format_row (fst e) (snd e) with
      | Ok row =>
          if encodable row
          then let (rows, r) := rows_of rest in (row :: rows, r)
          else ([], Raise UnicodeEncodeError)
      | Raise x => ([], Raise x)
      end
  end.

(** A value that is neither a string nor a container: [None], a [bool] or
    a number. *)
Definition is_scalar (v : json) : bool :=
  match v with
  | JNull | JBool _ | JInt _ | JFloat _ => true
  | JStr _ | JList _ | JDict _ => false
  end.

Definition is_json_str (v : json) : bool :=
  match v with JStr _ => true | _ => false end.

(** The events of a trace that touch the file system, with their paths. *)
Definition paths_touched {A : Type} (r : io A) : list pystr :=
  flat_map (fun ev => match ev with
                      | EvExists q | EvLoad q => [q]
                      | EvPrint _ => []
                      end) (fst r).

(** The text of a data row for a [str] domain and its count. *)
Definition row_text (s : pystr) (count : Z) : pystr :=
  ljust 40 s ++ lit " | " ++ ljust 10 (str_of_int count).

(** The characters [urlsplit] removes from a URL wherever they stand. *)
Definition is_unsafe_char (c : char) : bool :=
  existsb (N.eqb c) unsafe_url_bytes_to_remove.

(** The characters that end the authority. *)
Definition is_netloc_delim (c : char) : bool :=
  existsb (N.eqb c) [ch "/"; ch "?"; ch "#"].

(* ===================================================================== *)
(** ** Sample inputs *)
(* ===================================================================== *)

Module Samples.

(** A runtime whose tables do nothing: normalisation changes no text and no
    text is an IP address. *)
Definition rt_plain : runtime :=
  {| nfkc := fun s => s; ip_address := fun _ => None |}.

(** A runtime that takes every bracketed host for an IPv6 address. *)
Definition rt_ipv6 : runtime :=
  {| nfkc := fun s => s; ip_address := fun _ => Some IPv6 |}.

(** [{"url": u}] *)
Definition tab (u : string) : json := JDict [(url_key, JStr (lit u))].

(** [[{"url": "https://a.com/x"}, {"url": "https://a.com/y"},
      {"url": "https://b.com"}, {"no_url": true}, {"url": "not a url"}]] *)
Definition sample_records : list json :=
  [tab "https://a.com/x"; tab "https://a.com/y"; tab "https://b.com";
   JDict [(lit "no_url", JBool true)]; tab "not a url"].

Definition sample_domains : list domain :=
  [DStr (lit "a.com"); DStr (lit "a.com"); DStr (lit "b.com"); DStr []].

Definition tabs_json : pystr := lit "tabs.json".

(** A directory that holds one file, [tabs.json], with the given parsed
    content. *)
Definition one_file (content : json) : filesystem.
Proof.
  refine {| path_exists := fun p => str_eqb p tabs_json;
            json_load := fun p =>
              if str_eqb p tabs_json then inr content
              else inl (lit "[Errno 2] No such file or directory") |}.
  intros p msg. destruct (str_eqb p tabs_json); intros H; [discriminate|].
  injection H as <-. reflexivity.
Defined.

Definition fs_sample : filesystem := one_file (JList sample_records).

(** [tabs.json] holds [{not json]: loading it raises everywhere. *)
Definition fs_invalid : filesystem.
Proof.
  refine {| path_exists := fun p => str_eqb p tabs_json;
            json_load := fun _ =>
              inl (lit "Expecting property name enclosed in double quotes: line 1 column 2 (char 1)") |}.
  intros p msg H. injection H as <-. reflexivity.
Defined.

(** [tabs.json] holds [5]. *)
Definition fs_number : filesystem := one_file (JInt 5).

(** [tabs.json] holds [[{"url": null}]]. *)
Definition fs_null_url : filesystem :=
  one_file (JList [JDict [(url_key, JNull)]]).

(** [tabs.json] holds [[{"url": "//["}]]. *)
Definition fs_open_bracket : filesystem :=
  one_file (JList [tab "//["]).

(** [tabs.json] holds [[{"url": 5}]]. *)
Definition fs_int_url : filesystem :=
  one_file (JList [JDict [(url_key, JInt 5)]]).

(** [tabs.json] holds [[{}, {"title": "x"}]]. *)
Definition fs_no_urls : filesystem :=
  one_file (JList [JDict []; JDict [(lit "title", JStr (lit "x"))]]).

End Samples.

Import Samples.

Module MoreSamples.

(** [[{"url": "//h0"}, {"url": "//h1"}, ..., {"url": "//h30"}, {"url": "//h0"}]]:
    31 distinct hosts, the first of them twice. *)
Definition many_records : list json :=
  map (fun n => JDict [(url_key, JStr (lit "//h" ++ str_of_int (Z.of_nat n)))])
      (seq 0 31 ++ [0]).

Definition many_domains : list domain :=
  map (fun n => DStr (lit "h" ++ str_of_int (Z.of_nat n))) (seq 0 31 ++ [0]).

Definition fs_many : filesystem := one_file (JList many_records).

(** [tabs.json] holds the string ["url"]. *)
Definition fs_string : filesystem := one_file (JStr (lit "url")).

(** [tabs.json] holds [{"title": "x", "id": 3}]. *)
Definition fs_one_tab : filesystem :=
  one_file (JDict [(lit "title", JStr (lit "x")); (lit "id", JInt 3)]).

(** [tabs.json] holds [{"url": "https://a.com"}], a tab outside a list. *)
Definition fs_bare_tab : filesystem :=
  one_file (JDict [(url_key, JStr (lit "https://a.com"))]).

(** [tabs.json] holds [[{"url": "https://a.com"}, {"url": null}]]. *)
Definition fs_mixed : filesystem :=
  one_file (JList [tab "https://a.com"; JDict [(url_key, JNull)]]).

(** [tabs.json] holds [[{"url": "https://a.com"}, {"url": true}]]. *)
Definition fs_true_url : filesystem :=
  one_file (JList [tab "https://a.com"; JDict [(url_key, JBool true)]]).

(** [tabs.json] holds [[{"url": "https://a.com"}, 7]]. *)
Definition fs_number_element : filesystem :=
  one_file (JList [tab "https://a.com"; JInt 7]).

(** A path with the surrogate U+DCE9, as an undecodable byte of the command
    line is passed to the script. *)
Definition surrogate_path : pystr := lit "caf" ++ [56553%N].

(** [tabs.json] holds [[{"url": "//\ud800"}]]. *)
Definition fs_surrogate_url : filesystem :=
  one_file (JList [JDict [(url_key, JStr (lit "//" ++ [55296%N]))]]).

End MoreSamples.

Import MoreSamples.

(* ===================================================================== *)
(** ** The model on the examples of the specification *)
(* ===================================================================== *)

Example netloc_https :
  urlsplit_netloc rt_plain (lit "https://a.com/x") = Ok (lit "a.com").
Proof. reflexivity. Qed.

Example netloc_userinfo_port :
  urlsplit_netloc rt_plain (lit "  HTTP://u@Ex.org:8080?q#f") = Ok (lit "u@Ex.org:8080").
Proof. reflexivity. Qed.

Example netloc_not_a_url : urlsplit_netloc rt_plain (lit "not a url") = Ok [].
Proof. reflexivity. Qed.

Example netloc_bare_host : urlsplit_netloc rt_plain (lit "example.com") = Ok [].
Proof. reflexivity. Qed.

Example netloc_ipv6 :
  urlsplit_netloc rt_ipv6 (lit "http://[::1]:80/x") = Ok (lit "[::1]:80").
Proof. reflexivity. Qed.

Example netloc_ipvfuture :
  urlsplit_netloc rt_plain (lit "//[v1f.x]") = Ok (lit "[v1f.x]").
Proof. reflexivity. Qed.

Example netloc_ipvfuture_invalid :
  urlsplit_netloc rt_plain (lit "//[v.x]") = Raise ValueError.
Proof. reflexivity. Qed.

Example netloc_userinfo_brackets :
  urlsplit_netloc rt_ipv6 (lit "http://a]b[/") = Raise ValueError.
Proof. reflexivity. Qed.

Example extract_sample :
  extract_domains rt_plain (JList sample_records) = Ok sample_domains.
Proof. reflexivity. Qed.

Example ranking_sample :
  ranking_of sample_domains =
  [(DStr (lit "a.com"), 2%Z); (DStr (lit "b.com"), 1%Z); (DStr [], 1%Z)].
Proof. reflexivity. Qed.

Example main_sample :
  stdout (main rt_plain fs_sample tabs_json) =
  [lit "Domain                                   | Count     ";
   lit "-----------------------------------------------------";
   lit "a.com                                    | 2         ";
   lit "b.com                                    | 1         ";
   lit "                                         | 1         "]
  /\ outcome (main rt_plain fs_sample tabs_json) = Ok tt.
Proof. split; reflexivity. Qed.

Example main_top_level_string :
  main rt_plain (one_file (JStr (lit "curly"))) tabs_json =
  ([EvExists tabs_json; EvLoad tabs_json; EvPrint header; EvPrint separator],
   Ok tt).
Proof. reflexivity. Qed.

(** A [url] with a lone surrogate is loaded, parsed and ranked; the print of
    its row raises after the header and the separator. *)
Example main_surrogate_url :
  extract_domains rt_plain (JList [JDict [(url_key, JStr (lit "//" ++ [55296%N]))]])
  = Ok [DStr [55296%N]]
  /\ main rt_plain fs_surrogate_url tabs_json =
     ([EvExists tabs_json; EvLoad tabs_json; EvPrint header; EvPrint separator],
      Raise UnicodeEncodeError).
Proof. split; reflexivity. Qed.

(** A surrogate domain ranked before a [bytes] domain: the first row fails
    in [print], before the [bytes] domain is formatted. *)
Example main_surrogate_before_bytes :
  main rt_plain
       (one_file (JList [JDict [(url_key, JStr (lit "//" ++ [55296%N]))];
                         JDict [(url_key, JStr (lit "//" ++ [55296%N]))];
                         JDict [(url_key, JNull)]]))
       tabs_json =
  ([EvExists tabs_json; EvLoad tabs_json; EvPrint header; EvPrint separator],
   Raise UnicodeEncodeError).
Proof. reflexivity. Qed.

(* ===================================================================== *)
(** ** Facts about the stable sort *)
(* ===================================================================== *)

Section SortingFacts.

Variable A : Type.
Variable key : A -> Z.

Local Abbreviation ascending := (fun x y : A => (key x <= key y)%Z).
Local Abbreviation descending := (fun x y : A => (key y <= key x)%Z).
Local Abbreviation has_key n := (fun x : A => (key x =? n)%Z).

Lemma insert_perm (x : A) (l : list A) : Permutation (x :: l) (insert key x l).
Proof.
  induction l as [|y l IH]; simpl; [reflexivity|].
  destruct (key x <=? key y)%Z; [reflexivity|].
  rewrite perm_swap. now apply perm_skip.
Qed.

Lemma stable_sort_perm (l : list A) : Permutation l (stable_sort key l).
Proof.
  induction l as [|x l IH]; simpl; [constructor|].
  rewrite <- insert_perm. now apply perm_skip.
Qed.

Lemma sorted_perm (l : list A) (reverse : bool) :
  Permutation l (sorted key l reverse).
Proof.
  unfold sorted. destruct reverse; [|apply stable_sort_perm].
  rewrite <- Permutation_rev, <- stable_sort_perm. apply Permutation_rev.
Qed.

Lemma insert_ascending (x : A) (l : list A) :
  StronglySorted ascending l -> StronglySorted ascending (insert key x l).
Proof.
  induction 1 as [|y l Hl IH Hy]; simpl.
  - repeat constructor.
  - destruct (key x <=? key y)%Z eqn:E.
    + apply Z.leb_le in E. constructor; [now constructor|].
      constructor; [exact E|].
      eapply Forall_impl; [|exact Hy]. simpl. intros; lia.
    + apply Z.leb_gt in E. constructor; [exact IH|].
      rewrite Forall_forall. intros z Hz.
      apply (Permutation_in z (Permutation_sym (insert_perm x l))) in Hz.
      destruct Hz as [<-|Hz]; [lia|].
      rewrite Forall_forall in Hy. now apply Hy.
Qed.

Lemma stable_sort_ascending (l : list A) :
  StronglySorted ascending (stable_sort key l).
Proof.
  induction l as [|x l IH]; simpl; [constructor|now apply insert_ascending].
Qed.

Lemma strongly_sorted_snoc (R : A -> A -> Prop) (l : list A) (x : A) :
  StronglySorted R l -> Forall (fun y => R y x) l -> StronglySorted R (l ++ [x]).
Proof.
  induction 1 as [|y l Hl IH Hy]; intros Hx; simpl.
  - repeat constructor.
  - inversion Hx as [|? ? Hyx Hlx]; subst.
    constructor; [now apply IH|].
    apply Forall_app. split; [exact Hy|now constructor].
Qed.

Lemma strongly_sorted_rev (R : A -> A -> Prop) (l : list A) :
  StronglySorted R l -> StronglySorted (fun a b => R b a) (rev l).
Proof.
  induction 1 as [|y l Hl IH Hy]; simpl; [constructor|].
  apply strongly_sorted_snoc; [exact IH|].
  now apply Forall_rev.
Qed.

Lemma sorted_reverse_descending (l : list A) :
  StronglySorted descending (sorted key l true).
Proof.
  unfold sorted. apply (strongly_sorted_rev (R := ascending)).
  apply stable_sort_ascending.
Qed.

(** Stability: the elements of any one key keep their order. *)
Lemma insert_select (n : Z) (x : A) (l : list A) :
  filter (has_key n) (insert key x l) = filter (has_key n) (x :: l).
Proof.
  induction l as [|y l IH]; [reflexivity|].
  simpl insert. destruct (key x <=? key y)%Z eqn:E; [reflexivity|].
  apply Z.leb_gt in E. simpl in *. rewrite IH.
  destruct (key x =? n)%Z eqn:Ex, (key y =? n)%Z eqn:Ey; try reflexivity.
  apply Z.eqb_eq in Ex, Ey. lia.
Qed.

Lemma stable_sort_select (n : Z) (l : list A) :
  filter (has_key n) (stable_sort key l) = filter (has_key n) l.
Proof.
  induction l as [|x l IH]; [reflexivity|].
  simpl stable_sort. rewrite insert_select. simpl. now rewrite IH.
Qed.

Lemma sorted_select (n : Z) (l : list A) (reverse : bool) :
  filter (has_key n) (sorted key l reverse) = filter (has_key n) l.
Proof.
  unfold sorted. destruct reverse; [|apply stable_sort_select].
  now rewrite filter_rev, stable_sort_select, filter_rev, rev_involutive.
Qed.

(** In a list whose selection by [p] is sorted by [R], selected elements are
    related in the order of their positions. *)
Lemma select_order (R : A -> A -> Prop) (p : A -> bool) (l : list A) :
  StronglySorted R (filter p l) ->
  forall i j a b,
    i < j -> nth_error l i = Some a -> nth_error l j = Some b ->
    p a = true -> p b = true -> R a b.
Proof.
  induction l as [|x l IH]; intros Hs i j a b Hij Ha Hb Pa Pb.
  - destruct i; discriminate.
  - destruct j as [|j]; [lia|]. simpl in Hb.
    destruct i as [|i]; simpl in Ha.
    + injection Ha as ->. simpl in Hs. rewrite Pa in Hs.
      apply StronglySorted_inv in Hs. destruct Hs as [_ Hall].
      rewrite Forall_forall in Hall. apply Hall.
      apply filter_In. split; [eapply nth_error_In; eassumption|exact Pb].
    + apply (IH) with (i := i) (j := j); try assumption; [|lia].
      simpl in Hs. destruct (p x); [|exact Hs].
      now apply StronglySorted_inv in Hs.
Qed.

End SortingFacts.

(* ===================================================================== *)
(** ** Facts about Counter *)
(* ===================================================================== *)

Lemma domain_eqb_eq (a b : domain) : domain_eqb a b = true <-> a = b.
Proof.
  unfold domain_eqb. destruct (domain_eq_dec a b); split; intros; try easy.
Qed.

Lemma domain_eqb_neq (a b : domain) : domain_eqb a b = false <-> a <> b.
Proof.
  unfold domain_eqb. destruct (domain_eq_dec a b); split; intros; try easy.
Qed.

Lemma str_eqb_eq (a b : pystr) : str_eqb a b = true <-> a = b.
Proof.
  unfold str_eqb. destruct (list_eq_dec N.eq_dec a b); split; intros; try easy.
Qed.

Lemma dict_setitem_keys_present (m : counter) (k : domain) (v : Z) :
  In k (map fst m) -> map fst (dict_setitem m k v) = map fst m.
Proof.
  induction m as [|[k' v'] m IH]; simpl; intros H; [contradiction|].
  destruct (domain_eqb k k') eqn:E; [reflexivity|].
  apply domain_eqb_neq in E. simpl. f_equal. apply IH.
  destruct H as [H|H]; [congruence|exact H].
Qed.

Lemma dict_setitem_keys_new (m : counter) (k : domain) (v : Z) :
  ~ In k (map fst m) -> map fst (dict_setitem m k v) = map fst m ++ [k].
Proof.
  induction m as [|[k' v'] m IH]; simpl; intros H; [reflexivity|].
  destruct (domain_eqb k k') eqn:E.
  - apply domain_eqb_eq in E. exfalso. apply H. left. congruence.
  - simpl. f_equal. apply IH. intros Hin. apply H. now right.
Qed.

Lemma count_elements_snoc (m : counter) (ds : list domain) (d : domain) :
  count_elements m (ds ++ [d]) =
  dict_setitem (count_elements m ds) d (dict_get (count_elements m ds) d 0 + 1)%Z.
Proof. unfold count_elements. now rewrite fold_left_app. Qed.

Lemma Counter_snoc (ds : list domain) (d : domain) :
  Counter (ds ++ [d]) =
  dict_setitem (Counter ds) d (dict_get (Counter ds) d 0 + 1)%Z.
Proof. apply count_elements_snoc. Qed.

(** The keys of the table are the domains seen. *)
Lemma Counter_keys_iff (ds : list domain) (k : domain) :
  In k (map fst (Counter ds)) <-> In k ds.
Proof.
  induction ds as [|d ds IH] using rev_ind; [reflexivity|].
  rewrite Counter_snoc, in_app_iff. simpl.
  destruct (in_dec domain_eq_dec d (map fst (Counter ds))) as [Hd|Hd].
  - rewrite dict_setitem_keys_present by exact Hd. rewrite IH.
    split; [tauto|]. intros [H|[<-|[]]]; [exact H|now apply IH].
  - rewrite dict_setitem_keys_new by exact Hd. rewrite in_app_iff, IH.
    simpl. tauto.
Qed.

Lemma Counter_keys_NoDup (ds : list domain) : NoDup (map fst (Counter ds)).
Proof.
  induction ds as [|d ds IH] using rev_ind; [constructor|].
  rewrite Counter_snoc.
  destruct (in_dec domain_eq_dec d (map fst (Counter ds))) as [Hd|Hd].
  - now rewrite dict_setitem_keys_present.
  - rewrite dict_setitem_keys_new by exact Hd.
    apply NoDup_app; [exact IH|repeat constructor; intros []|].
    intros a Ha [<-|[]]. contradiction.
Qed.

Lemma first_index_lt (d : domain) (l : list domain) :
  In d l -> first_index d l < length l.
Proof.
  induction l as [|x l IH]; simpl; intros H; [contradiction|].
  destruct (domain_eqb d x) eqn:E; [lia|].
  apply domain_eqb_neq in E. destruct H as [H|H]; [congruence|].
  apply IH in H. lia.
Qed.

Lemma first_index_app_present (d : domain) (l l' : list domain) :
  In d l -> first_index d (l ++ l') = first_index d l.
Proof.
  induction l as [|x l IH]; simpl; intros H; [contradiction|].
  destruct (domain_eqb d x) eqn:E; [reflexivity|].
  apply domain_eqb_neq in E. destruct H as [H|H]; [congruence|].
  now rewrite IH.
Qed.

Lemma first_index_new (d : domain) (l : list domain) :
  ~ In d l -> first_index d (l ++ [d]) = length l.
Proof.
  induction l as [|x l IH]; simpl; intros H.
  - destruct (domain_eqb d d) eqn:E; [reflexivity|].
    now apply domain_eqb_neq in E.
  - destruct (domain_eqb d x) eqn:E.
    + apply domain_eqb_eq in E. exfalso. apply H. left. congruence.
    + f_equal. apply IH. intros Hin. apply H. now right.
Qed.

Lemma strongly_sorted_ext_in (A : Type) (R R' : A -> A -> Prop) (l : list A) :
  (forall a b, In a l -> In b l -> R a b -> R' a b) ->
  StronglySorted R l -> StronglySorted R' l.
Proof.
  intros Hext Hs. induction Hs as [|x l Hl IH Hx]; [constructor|].
  constructor.
  - apply IH. intros a b Ha Hb. apply Hext; now right.
  - rewrite Forall_forall in *. intros y Hy.
    apply Hext; [now left|now right|now apply Hx].
Qed.

Lemma strongly_sorted_map (A B : Type) (f : A -> B) (R : B -> B -> Prop)
      (l : list A) :
  StronglySorted R (map f l) -> StronglySorted (fun a b => R (f a) (f b)) l.
Proof.
  induction l as [|x l IH]; simpl; intros H; [constructor|].
  apply StronglySorted_inv in H. destruct H as [Hl Hx].
  constructor; [now apply IH|].
  rewrite Forall_forall in *. intros y Hy. apply Hx. now apply in_map.
Qed.

(** The keys of the table stand in the order in which the domains were first
    seen. *)
Lemma Counter_keys_first_seen (ds : list domain) :
  StronglySorted (fun a b => first_index a ds < first_index b ds)
                 (map fst (Counter ds)).
Proof.
  induction ds as [|d ds IH] using rev_ind; [constructor|].
  assert (Hold : StronglySorted
                   (fun a b => first_index a (ds ++ [d]) < first_index b (ds ++ [d]))
                   (map fst (Counter ds))).
  { eapply strongly_sorted_ext_in; [|exact IH].
    intros a b Ha Hb Hab. rewrite Counter_keys_iff in Ha, Hb.
    rewrite !first_index_app_present by assumption. exact Hab. }
  rewrite Counter_snoc.
  destruct (in_dec domain_eq_dec d (map fst (Counter ds))) as [Hd|Hd].
  - now rewrite dict_setitem_keys_present.
  - rewrite dict_setitem_keys_new by exact Hd.
    apply strongly_sorted_snoc; [exact Hold|].
    rewrite Forall_forall. intros k Hk. rewrite Counter_keys_iff in Hk.
    rewrite first_index_app_present by exact Hk.
    rewrite first_index_new.
    + now apply first_index_lt.
    + intros Hin. apply Hd. now apply Counter_keys_iff.
Qed.

Lemma dict_setitem_increment (m : counter) (k : domain) :
  sum_counts (dict_setitem m k (dict_get m k 0 + 1)%Z) = (sum_counts m + 1)%Z.
Proof.
  unfold sum_counts. induction m as [|[k' v'] m IH]; simpl; [reflexivity|].
  destruct (domain_eqb k k'); simpl; [lia|]. rewrite IH. lia.
Qed.

Lemma sum_counts_Counter (ds : list domain) :
  sum_counts (Counter ds) = Z.of_nat (length ds).
Proof.
  induction ds as [|d ds IH] using rev_ind; [reflexivity|].
  rewrite Counter_snoc, dict_setitem_increment, IH, length_app. simpl. lia.
Qed.

Lemma dict_get_setitem (m : counter) (k k' : domain) (v : Z) :
  dict_get (dict_setitem m k v) k' 0 =
  if domain_eqb k' k then v else dict_get m k' 0.
Proof.
  induction m as [|[k0 v0] m IH]; simpl.
  - destruct (domain_eqb k' k); reflexivity.
  - destruct (domain_eqb k k0) eqn:E; simpl.
    + apply domain_eqb_eq in E. subst k0.
      destruct (domain_eqb k' k); reflexivity.
    + destruct (domain_eqb k' k0) eqn:E'.
      * apply domain_eqb_eq in E'. subst k0.
        destruct (domain_eqb k' k) eqn:E''; [|reflexivity].
        apply domain_eqb_eq in E''. apply domain_eqb_neq in E. congruence.
      * exact IH.
Qed.

(** The count of a domain is the number of its occurrences. *)
Lemma Counter_get (ds : list domain) (d : domain) :
  dict_get (Counter ds) d 0 = Z.of_nat (count_occ domain_eq_dec ds d).
Proof.
  induction ds as [|x ds IH] using rev_ind; [reflexivity|].
  rewrite Counter_snoc, dict_get_setitem, count_occ_app. simpl.
  destruct (domain_eqb d x) eqn:E.
  - apply domain_eqb_eq in E. subst x.
    destruct (domain_eq_dec d d); [|congruence]. rewrite IH. lia.
  - apply domain_eqb_neq in E.
    destruct (domain_eq_dec x d); [congruence|]. rewrite IH. lia.
Qed.

(* ===================================================================== *)
(** ** Aggregator: the Ranking *)
(* ===================================================================== *)

Lemma strongly_sorted_filter (A : Type) (R : A -> A -> Prop) (p : A -> bool)
      (l : list A) :
  StronglySorted R l -> StronglySorted R (filter p l).
Proof.
  induction 1 as [|x l Hl IH Hx]; simpl; [constructor|].
  destruct (p x); [|exact IH].
  constructor; [exact IH|].
  eapply incl_Forall; [apply incl_filter|exact Hx].
Qed.

Lemma dict_get_In (m : counter) (d : domain) (c : Z) :
  NoDup (map fst m) -> In (d, c) m -> dict_get m d 0 = c.
Proof.
  induction m as [|[k v] m IH]; simpl; intros Hnd Hin; [contradiction|].
  inversion Hnd as [|? ? Hk Hm]; subst.
  destruct Hin as [Heq|Hin].
  - injection Heq as -> ->.
    destruct (domain_eqb d d) eqn:E; [reflexivity|].
    now apply domain_eqb_neq in E.
  - destruct (domain_eqb d k) eqn:E; [|now apply IH].
    apply domain_eqb_eq in E. subst k. exfalso. apply Hk.
    change d with (fst (d, c)). now apply in_map.
Qed.

Lemma ranking_perm (domains : list domain) :
  Permutation (Counter domains) (ranking_of domains).
Proof. apply sorted_perm. Qed.

(** C1. For every sequence of extracted domains, the Ranking that main
    builds from it, [Counter(domains).most_common()], is sorted
    non-increasing by count; two entries of equal count stand in the order
    in which their domains first occur in the domain sequence; and the count
    of an entry is the number of occurrences of its domain. *)
Theorem ranking_sorted_stable (domains : list domain) :
  StronglySorted (fun a b => (snd b <= snd a)%Z) (ranking_of domains)
  /\ (forall i j a b,
        i < j ->
        nth_error (ranking_of domains) i = Some a ->
        nth_error (ranking_of domains) j = Some b ->
        snd a = snd b ->
        first_index (fst a) domains < first_index (fst b) domains)
  /\ (forall d c,
        In (d, c) (ranking_of domains) ->
        c = Z.of_nat (count_occ domain_eq_dec domains d)).
Proof.
  split; [|split].
  - apply sorted_reverse_descending.
  - intros i j a b Hij Ha Hb Hc.
    set (R := fun x y : domain * Z =>
                first_index (fst x) domains < first_index (fst y) domains).
    change (R a b).
    apply (select_order (R := R) (fun x => (snd x =? snd a)%Z)
                        (ranking_of domains)) with (i := i) (j := j);
      try assumption.
    + unfold ranking_of, most_common. rewrite sorted_select.
      apply strongly_sorted_filter. unfold R.
      apply strongly_sorted_map with (f := @fst domain Z)
        (R := fun x y => first_index x domains < first_index y domains).
      apply Counter_keys_first_seen.
    + apply Z.eqb_refl.
    + rewrite <- Hc. apply Z.eqb_refl.
  - intros d c Hin.
    apply (Permutation_in _ (Permutation_sym (ranking_perm domains))) in Hin.
    rewrite <- Counter_get. symmetry.
    apply dict_get_In; [apply Counter_keys_NoDup|exact Hin].
Qed.

(* ===================================================================== *)
(** ** Domain Extractor on well-typed records *)
(* ===================================================================== *)

Lemma well_typed_record_inv (t : json) :
  well_typed_record t = true ->
  exists items,
    t = JDict items
    /\ (dict_lookup url_key items = None
        \/ exists s, dict_lookup url_key items = Some (JStr s)).
Proof.
  destruct t as [| | | | |l|items]; simpl; try discriminate.
  intros H. exists items. split; [reflexivity|].
  destruct (dict_lookup url_key items) as [v|]; [|now left].
  destruct v; try discriminate. right. now eexists.
Qed.

Lemma dict_lookup_key (k : pystr) (items : list (pystr * json)) :
  existsb (fun kv => str_eqb k (fst kv)) items = true <->
  exists v, dict_lookup k items = Some v.
Proof.
  induction items as [|[k' v'] items IH]; simpl.
  - split; [discriminate|intros [v Hv]; discriminate].
  - destruct (str_eqb k k'); simpl; [|exact IH].
    split; [intros _; now eexists|reflexivity].
Qed.

(** On well-typed records the comprehension, when no [urlparse] call raises,
    yields one [str] domain for each record that has a [url] key. *)
Lemma comprehension_well_typed (rt : runtime) (records : list json) :
  forallb well_typed_record records = true ->
  forall domains,
    comprehension rt records = Ok domains ->
    length domains = length (filter has_url_key records)
    /\ forallb is_str domains = true.
Proof.
  induction records as [|t ts IH]; simpl; intros Hwt domains Hc.
  - injection Hc as <-. now split.
  - apply andb_true_iff in Hwt. destruct Hwt as [Ht Hts].
    destruct (well_typed_record_inv _ Ht) as (items & -> & Hlook).
    simpl in Hc |- *.
    destruct (existsb (fun kv => str_eqb url_key (fst kv)) items) eqn:Hkey.
    + destruct Hlook as [Hnone|[s Hs]].
      * apply dict_lookup_key in Hkey. destruct Hkey as [v Hv]. congruence.
      * rewrite Hs in Hc. simpl in Hc.
        destruct (urlsplit_netloc rt s) as [n|e]; simpl in Hc; [|discriminate].
        destruct (comprehension rt ts) as [ds|e] eqn:Hts'; simpl in Hc;
          [|discriminate].
        injection Hc as <-. destruct (IH Hts ds eq_refl) as [Hlen Hstr].
        simpl. split; [now rewrite Hlen|exact Hstr].
    + now apply IH.
Qed.

(** C2. For every well-typed input (a sequence of mappings whose [url]
    values, when present, are strings) from which main extracts the domain
    sequence, the sum of all counts in the Frequency Table equals the number
    of records that contain a [url] key. *)
Theorem frequency_sum (rt : runtime) (records : list json)
        (domains : list domain) :
  forallb well_typed_record records = true ->
  extract_domains rt (JList records) = Ok domains ->
  sum_counts (Counter domains)
  = Z.of_nat (length (filter has_url_key records)).
Proof.
  intros Hwt Hex. simpl in Hex.
  destruct (comprehension_well_typed rt records Hwt Hex) as [Hlen _].
  now rewrite sum_counts_Counter, Hlen.
Qed.

Lemma frequency_sum_witness :
  forallb well_typed_record sample_records = true
  /\ extract_domains rt_plain (JList sample_records) = Ok sample_domains
  /\ sum_counts (Counter sample_domains)
     = Z.of_nat (length (filter has_url_key sample_records)).
Proof.
  split; [reflexivity|]. split; [reflexivity|].
  apply (frequency_sum rt_plain sample_records); reflexivity.
Defined.

(* ===================================================================== *)
(** ** The three ways through main *)
(* ===================================================================== *)

Lemma encodable_app (a b : pystr) :
  encodable (a ++ b) = encodable a && encodable b.
Proof. apply forallb_app. Qed.

Lemma encodable_ascii_list (l : list ascii) :
  encodable (map N_of_ascii l) = true.
Proof.
  unfold encodable. rewrite forallb_forall. intros c Hc.
  apply in_map_iff in Hc. destruct Hc as (a & <- & _).
  pose proof (N_ascii_bounded a) as Hb. unfold is_surrogate.
  apply negb_true_iff, andb_false_iff. left. apply N.leb_gt. lia.
Qed.

Lemma encodable_lit (s : string) : encodable (lit s) = true.
Proof. apply encodable_ascii_list. Qed.

Lemma encodable_str_of_int (z : Z) : encodable (str_of_int z) = true.
Proof. apply encodable_ascii_list. Qed.

Lemma encodable_ljust (w : nat) (s : pystr) :
  encodable (ljust w s) = encodable s.
Proof.
  unfold ljust. rewrite encodable_app.
  replace (encodable (repeat (ch " ") (w - length s))) with true;
    [apply andb_true_r|].
  symmetry. induction (w - length s) as [|n IH]; [reflexivity|exact IH].
Qed.

(** A row can be encoded exactly when its domain can. *)
Lemma encodable_row (s : pystr) (c : Z) :
  encodable (ljust 40 s ++ lit " | " ++ ljust 10 (str_of_int c)) = encodable s.
Proof.
  rewrite !encodable_app, !encodable_ljust, encodable_lit,
    encodable_str_of_int.
  now rewrite !andb_true_r.
Qed.

Lemma encodable_incl (a b : pystr) :
  incl a b -> encodable b = true -> encodable a = true.
Proof.
  unfold encodable. rewrite !forallb_forall. intros Hi Hb c Hc.
  apply Hb, Hi, Hc.
Qed.

Lemma encodable_not_found (p : pystr) :
  encodable (lit "Error: File " ++ p ++ lit " not found.") = encodable p.
Proof. rewrite !encodable_app, !encodable_lit. now rewrite andb_true_r. Qed.

Lemma main_missing (rt : runtime) (fs : filesystem) (p : pystr) :
  path_exists fs p = false ->
  encodable p = true ->
  main rt fs p =
  ([EvExists p; EvPrint (lit "Error: File " ++ p ++ lit " not found.")], Ok tt).
Proof.
  intros H Hp. unfold main, os_path_exists, io_bind, print.
  now rewrite H, encodable_not_found, Hp.
Qed.

Lemma main_missing_unencodable (rt : runtime) (fs : filesystem) (p : pystr) :
  path_exists fs p = false ->
  encodable p = false ->
  main rt fs p = ([EvExists p], Raise UnicodeEncodeError).
Proof.
  intros H Hp. unfold main, os_path_exists, io_bind, print.
  now rewrite H, encodable_not_found, Hp.
Qed.

Lemma main_load_error (rt : runtime) (fs : filesystem) (p msg : pystr) :
  path_exists fs p = true ->
  json_load fs p = inl msg ->
  main rt fs p =
  ([EvExists p; EvLoad p; EvPrint (lit "Error reading JSON: " ++ msg)], Ok tt).
Proof.
  intros He Hl. unfold main, os_path_exists, load.
  unfold io_bind at 1. rewrite He. cbn [negb]. cbv iota.
  unfold io_bind at 1. rewrite Hl. unfold print.
  rewrite encodable_app, encodable_lit, (json_load_message fs p Hl).
  reflexivity.
Qed.

Lemma main_loaded (rt : runtime) (fs : filesystem) (p : pystr) (tabs : json) :
  path_exists fs p = true ->
  json_load fs p = inr tabs ->
  main rt fs p =
  (EvExists p :: EvLoad p :: fst (table_stage rt tabs),
   snd (table_stage rt tabs)).
Proof.
  intros He Hl. unfold main, os_path_exists, load.
  unfold io_bind at 1. rewrite He. simpl negb. cbv iota.
  unfold io_bind at 1. rewrite Hl.
  fold (table_stage rt tabs).
  destruct (table_stage rt tabs) as [tr r]. reflexivity.
Qed.

Lemma print_rows_spec (stats : list (domain * Z)) :
  print_rows stats =
  (map EvPrint (fst (rows_of (firstn 30 stats))),
   snd (rows_of (firstn 30 stats))).
Proof.
  unfold print_rows. induction (firstn 30 stats) as [|e l IH]; [reflexivity|].
  cbn [for_each rows_of]. rewrite IH. unfold lift, print, io_bind.
  destruct (format_row (fst e) (snd e)) as [row|x]; [|reflexivity].
  destruct (encodable row); [|reflexivity].
  destruct (rows_of l) as [rows r]. reflexivity.
Qed.

Lemma stdout_prints (A : Type) (rows : list pystr) (r : result A) :
  stdout (map EvPrint rows, r) = rows.
Proof.
  unfold stdout. simpl. induction rows as [|x rows IH]; simpl; congruence.
Qed.

Lemma table_stage_raise (rt : runtime) (tabs : json) (e : exception) :
  extract_domains rt tabs = Raise e ->
  table_stage rt tabs = ([], Raise e).
Proof. intros H. unfold table_stage, lift, io_bind. now rewrite H. Qed.

Lemma encodable_lit_header : encodable header = true.
Proof. reflexivity. Qed.

Lemma encodable_separator : encodable separator = true.
Proof. reflexivity. Qed.

Lemma table_stage_ok (rt : runtime) (tabs : json) (domains : list domain) :
  extract_domains rt tabs = Ok domains ->
  table_stage rt tabs =
  (EvPrint header :: EvPrint separator
     :: map EvPrint (fst (rows_of (firstn 30 (ranking_of domains)))),
   snd (rows_of (firstn 30 (ranking_of domains)))).
Proof.
  intros H. unfold table_stage, lift. unfold io_bind at 1. rewrite H.
  fold (ranking_of domains). rewrite print_rows_spec.
  unfold print.
  replace (encodable header) with true by (symmetry; apply encodable_lit_header).
  replace (encodable separator) with true
    by (symmetry; apply encodable_separator).
  reflexivity.
Qed.

(* ===================================================================== *)
(** ** Domain Extractor: which strings urlsplit accepts *)
(* ===================================================================== *)

Lemma incl_firstn (A : Type) (n : nat) (l : list A) : incl (firstn n l) l.
Proof.
  intros x Hx. rewrite <- (firstn_skipn n l). apply in_or_app. now left.
Qed.

Lemma incl_skipn (A : Type) (n : nat) (l : list A) : incl (skipn n l) l.
Proof.
  intros x Hx. rewrite <- (firstn_skipn n l). apply in_or_app. now right.
Qed.

Lemma incl_lstrip (inset : char -> bool) (s : pystr) : incl (lstrip inset s) s.
Proof.
  induction s as [|c s IH]; simpl; [apply incl_refl|].
  destruct (inset c); [now apply incl_tl|apply incl_refl].
Qed.

Lemma incl_sanitize (url : pystr) : incl (sanitize url) url.
Proof.
  unfold sanitize, unsafe_url_bytes_to_remove, remove_char. simpl.
  repeat (eapply incl_tran; [apply incl_filter|]).
  apply incl_lstrip.
Qed.

Lemma incl_drop_scheme (url : pystr) : incl (drop_scheme url) url.
Proof.
  unfold drop_scheme. destruct (find (ch ":") url) as [i|]; [|apply incl_refl].
  match goal with |- incl (if ?b then _ else _) _ => destruct b end;
    [apply incl_skipn|apply incl_refl].
Qed.

(** The authority is made of characters of the URL. *)
Lemma incl_authority (url : pystr) : incl (authority url) url.
Proof.
  unfold authority.
  destruct (str_eqb (firstn 2 (drop_scheme (sanitize url))) (lit "//"));
    [|intros x []].
  unfold splitnetloc, slice.
  eapply incl_tran; [apply incl_firstn|].
  eapply incl_tran; [apply incl_skipn|].
  eapply incl_tran; [apply incl_drop_scheme|apply incl_sanitize].
Qed.

Lemma plain_chars_char_in (c : char) (s : pystr) :
  forallb plain_char s = true ->
  c = ch "[" \/ c = ch "]" -> char_in c s = false.
Proof.
  intros Hs Hc. unfold char_in.
  destruct (existsb (N.eqb c) s) eqn:E; [|reflexivity].
  apply existsb_exists in E. destruct E as (x & Hx & Hcx).
  apply N.eqb_eq in Hcx. subst x.
  rewrite forallb_forall in Hs. specialize (Hs c Hx).
  destruct Hc as [-> | ->]; discriminate.
Qed.

Lemma plain_chars_isascii (s : pystr) :
  forallb plain_char s = true -> isascii s = true.
Proof.
  unfold isascii. rewrite !forallb_forall. intros H c Hc.
  specialize (H c Hc). unfold plain_char in H.
  now apply andb_true_iff in H as [H%andb_true_iff _].
Qed.

(** An authority without square brackets and without non-ASCII characters
    passes every check of [urlsplit], whatever the library tables are. *)
Lemma urlsplit_netloc_plain_authority (rt : runtime) (url : pystr) :
  forallb plain_char (authority url) = true ->
  urlsplit_netloc rt url = Ok (authority url).
Proof.
  intros H. unfold urlsplit_netloc.
  rewrite (plain_chars_char_in (c := ch "[") _ H) by now left.
  rewrite (plain_chars_char_in (c := ch "]") _ H) by now right.
  simpl. unfold checknetloc. rewrite (plain_chars_isascii _ H).
  now rewrite orb_true_r.
Qed.

(** A URL of plain characters has an authority of plain characters. *)
Lemma plain_url_plain_authority (url : pystr) :
  forallb plain_char url = true -> forallb plain_char (authority url) = true.
Proof.
  rewrite !forallb_forall. intros H c Hc. apply H. now apply incl_authority.
Qed.

(** C3, amended. For every record whose [url] value is a string, take the
    authority as [urlsplit] computes it before its checks: leading
    characters up to U+0020 are stripped, every tab, carriage return and
    line feed is removed, a leading scheme with its colon is cut (the text
    before the first colon, when it is an ASCII letter followed by letters,
    digits, [+], [-] or [.]); if what is left starts with [//] the authority
    is the text after these two characters up to the first [/], [?] or [#],
    and otherwise it is empty. When every character of that authority is
    ASCII and none is a square bracket, extracting the domain does not
    raise: the string is mapped to that authority (possibly empty), a [str]
    that is counted like any other domain. *)
Theorem plain_authority_never_raises (rt : runtime) (url : pystr) :
  forallb plain_char (authority url) = true ->
  urlparse_netloc rt (JStr url) = Ok (DStr (authority url)).
Proof.
  intros H. unfold urlparse_netloc.
  now rewrite urlsplit_netloc_plain_authority.
Qed.

Lemma plain_authority_never_raises_witness :
  forallb plain_char (authority (lit "not a url")) = true
  /\ urlparse_netloc rt_plain (JStr (lit "not a url")) = Ok (DStr []).
Proof.
  split; [reflexivity|].
  apply (@plain_authority_never_raises rt_plain (lit "not a url")).
  reflexivity.
Defined.

(** C3 as stated fails: the record [{"url": "//["}] holds a string, and on
    every runtime [urlparse] raises [ValueError] on it (the authority has an
    opening bracket and no closing one), so that main raises too. *)
Lemma open_bracket_url_raises :
  on_every_runtime
    (fun rt =>
       urlparse_netloc rt (JStr (lit "//[")) = Raise ValueError
       /\ main rt fs_open_bracket tabs_json
          = ([EvExists tabs_json; EvLoad tabs_json], Raise ValueError)).
Proof. intros rt. split; reflexivity. Qed.

(* ===================================================================== *)
(** ** Reporter: the rows *)
(* ===================================================================== *)

Lemma ranking_keys_iff (domains : list domain) (d : domain) :
  In d (map fst (ranking_of domains)) <-> In d domains.
Proof.
  split; intros H.
  - apply (proj1 (Counter_keys_iff domains d)).
    eapply Permutation_in; [|exact H].
    apply Permutation_map, Permutation_sym, ranking_perm.
  - apply (proj2 (Counter_keys_iff domains d)) in H.
    eapply Permutation_in; [|exact H].
    apply Permutation_map, ranking_perm.
Qed.

Lemma ranking_keys_NoDup (domains : list domain) :
  NoDup (map fst (ranking_of domains)).
Proof.
  eapply Permutation_NoDup; [|apply Counter_keys_NoDup].
  apply Permutation_map, ranking_perm.
Qed.

Lemma rows_of_length (entries : list (domain * Z)) :
  length (fst (rows_of entries)) <= length entries.
Proof.
  induction entries as [|e l IH]; simpl; [lia|].
  destruct (format_row (fst e) (snd e)) as [row|x]; simpl; [|lia].
  destruct (encodable row); simpl; [|lia].
  destruct (rows_of l). simpl in *. lia.
Qed.

Lemma rows_of_cons_str (s : pystr) (c : Z) (l : list (domain * Z)) :
  rows_of ((DStr s, c) :: l) =
  if encodable s
  then ((ljust 40 s ++ lit " | " ++ ljust 10 (str_of_int c))
          :: fst (rows_of l), snd (rows_of l))
  else ([], Raise UnicodeEncodeError).
Proof.
  cbn [rows_of fst snd format_row format_domain bind].
  rewrite encodable_row. destruct (encodable s); [|reflexivity].
  destruct (rows_of l); reflexivity.
Qed.

(** When every domain is a [str] that standard output can encode, the loop
    ends normally, with one row for each entry, in order. *)
Lemma rows_of_printable (entries : list (domain * Z)) :
  (forall e, In e entries -> printable (fst e) = true) ->
  snd (rows_of entries) = Ok tt
  /\ Forall2 (fun row e => format_row (fst e) (snd e) = Ok row)
             (fst (rows_of entries)) entries.
Proof.
  induction entries as [|e l IH]; intros H; [now split|].
  assert (He : printable (fst e) = true) by (apply H; now left).
  destruct (IH (fun x Hx => H x (or_intror Hx))) as [Hr Hrows].
  destruct e as [[s|b] c]; simpl in He; [|discriminate].
  rewrite rows_of_cons_str, He. cbn [fst snd].
  split; [exact Hr|]. now constructor.
Qed.

(** Every row printed is the formatting of an entry whose domain is a
    [str]. *)
Lemma rows_of_In (entries : list (domain * Z)) (row : pystr) :
  In row (fst (rows_of entries)) ->
  exists s count,
    In (DStr s, count) entries
    /\ row = ljust 40 s ++ lit " | " ++ ljust 10 (str_of_int count).
Proof.
  induction entries as [|e l IH]; intros H; [contradiction|].
  destruct e as [[s|b] c]; [|contradiction].
  rewrite rows_of_cons_str in H.
  destruct (encodable s); [|contradiction].
  cbn [fst] in H. destruct H as [<-|H].
  - exists s, c. split; [now left|reflexivity].
  - destruct (IH H) as (s' & c' & Hin & Hrow).
    exists s', c'. split; [now right|exact Hrow].
Qed.

Lemma ljust_length (w : nat) (s : pystr) :
  length (ljust w s) = Nat.max w (length s).
Proof. unfold ljust. rewrite length_app, repeat_length. lia. Qed.

Lemma ljust_long (w : nat) (s : pystr) : w <= length s -> ljust w s = s.
Proof.
  intros H. unfold ljust. replace (w - length s) with 0 by lia.
  apply app_nil_r.
Qed.

Lemma data_rows_table (rt : runtime) (fs : filesystem) (p : pystr)
      (tabs : json) (domains : list domain) :
  path_exists fs p = true ->
  json_load fs p = inr tabs ->
  extract_domains rt tabs = Ok domains ->
  data_rows (main rt fs p) = fst (rows_of (firstn 30 (ranking_of domains))).
Proof.
  intros He Hl Hx.
  rewrite (main_loaded rt _ _ He Hl), (table_stage_ok _ _ Hx).
  unfold data_rows, stdout. simpl. apply (stdout_prints _ (Ok tt)).
Qed.

(** The data rows of a run: none unless the table stage is reached with the
    domains extracted, and then the rows of the first 30 ranked entries up
    to the first that cannot be printed. *)
Lemma data_rows_main (rt : runtime) (fs : filesystem) (p : pystr) :
  data_rows (main rt fs p) = []
  \/ exists tabs domains,
       path_exists fs p = true
       /\ json_load fs p = inr tabs
       /\ extract_domains rt tabs = Ok domains
       /\ data_rows (main rt fs p)
          = fst (rows_of (firstn 30 (ranking_of domains))).
Proof.
  destruct (path_exists fs p) eqn:He.
  2:{ left. destruct (encodable p) eqn:Hp;
        [now rewrite main_missing|now rewrite main_missing_unencodable]. }
  destruct (json_load fs p) as [msg|tabs] eqn:Hl;
    [left; now rewrite (main_load_error rt _ _ He Hl)|].
  destruct (extract_domains rt tabs) as [domains|e] eqn:Hx.
  - right. exists tabs, domains. repeat split; try assumption.
    now apply data_rows_table with (tabs := tabs).
  - left. now rewrite (main_loaded rt _ _ He Hl), (table_stage_raise _ _ Hx).
Qed.

(* ===================================================================== *)
(** ** Error handling of main *)
(* ===================================================================== *)

Lemma comprehension_accepted (rt : runtime) (records : list json) :
  forallb well_typed_record records = true ->
  forallb (url_accepted rt) records = true ->
  exists domains, comprehension rt records = Ok domains.
Proof.
  induction records as [|t ts IH]; simpl; intros Hwt Hacc; [now eexists|].
  apply andb_true_iff in Hwt. destruct Hwt as [Ht Hts].
  apply andb_true_iff in Hacc. destruct Hacc as [Ha Has].
  destruct (IH Hts Has) as [ds Hds].
  destruct (well_typed_record_inv _ Ht) as (items & -> & Hlook).
  simpl in Ha |- *.
  destruct (existsb (fun kv => str_eqb url_key (fst kv)) items) eqn:Hkey;
    [|now exists ds].
  destruct Hlook as [Hnone|[s Hs]].
  - apply dict_lookup_key in Hkey. destruct Hkey as [v Hv]. congruence.
  - rewrite Hs in Ha |- *. simpl.
    destruct (urlsplit_netloc rt s) as [n|e]; [|discriminate].
    simpl. rewrite Hds. simpl. now eexists.
Qed.

Lemma urlsplit_netloc_raises (rt : runtime) (url : pystr) (e : exception) :
  urlsplit_netloc rt url = Raise e -> e = ValueError.
Proof.
  unfold urlsplit_netloc.
  repeat match goal with
         | |- context [if ?b then _ else _] => destruct b
         end; congruence.
Qed.

(** On well-typed records the only exception of the Extractor is the
    [ValueError] of [urlsplit]. *)
Lemma well_typed_only_value_error (rt : runtime) (records : list json)
      (e : exception) :
  forallb well_typed_record records = true ->
  comprehension rt records = Raise e -> e = ValueError.
Proof.
  induction records as [|t ts IH]; simpl; intros Hwt Hc; [discriminate|].
  apply andb_true_iff in Hwt. destruct Hwt as [Ht Hts].
  destruct (well_typed_record_inv _ Ht) as (items & -> & Hlook).
  simpl in Hc.
  destruct (existsb (fun kv => str_eqb url_key (fst kv)) items) eqn:Hkey;
    [|now apply IH].
  destruct Hlook as [Hnone|[s Hs]].
  - apply dict_lookup_key in Hkey. destruct Hkey as [v Hv]. congruence.
  - rewrite Hs in Hc. simpl in Hc.
    destruct (urlsplit_netloc rt s) as [n|e'] eqn:Hn; simpl in Hc.
    + destruct (comprehension rt ts) as [ds|e'] eqn:Hts'; simpl in Hc;
        [discriminate|].
      injection Hc as <-. now apply IH.
    + injection Hc as <-. now apply urlsplit_netloc_raises in Hn.
Qed.

Lemma urlsplit_netloc_ok (rt : runtime) (url n : pystr) :
  urlsplit_netloc rt url = Ok n -> n = authority url.
Proof.
  unfold urlsplit_netloc.
  repeat match goal with
         | |- context [if ?b then _ else _] => destruct b
         end; congruence.
Qed.

(** Records whose [url] strings hold no surrogate give domains that hold
    none. *)
Lemma comprehension_printable (rt : runtime) (records : list json) :
  forallb well_typed_record records = true ->
  forallb url_encodable records = true ->
  forall domains,
    comprehension rt records = Ok domains ->
    forallb printable domains = true.
Proof.
  induction records as [|t ts IH]; simpl; intros Hwt Hen domains Hc.
  - now injection Hc as <-.
  - apply andb_true_iff in Hwt. destruct Hwt as [Ht Hts].
    apply andb_true_iff in Hen. destruct Hen as [He Hes].
    destruct (well_typed_record_inv _ Ht) as (items & -> & Hlook).
    simpl in Hc, He.
    destruct (existsb (fun kv => str_eqb url_key (fst kv)) items) eqn:Hkey;
      [|now apply IH].
    destruct Hlook as [Hnone|[s Hs]].
    + apply dict_lookup_key in Hkey. destruct Hkey as [v Hv]. congruence.
    + rewrite Hs in Hc, He. simpl in Hc.
      destruct (urlsplit_netloc rt s) as [n|e] eqn:Hn; simpl in Hc;
        [|discriminate].
      destruct (comprehension rt ts) as [ds|e] eqn:Hts'; simpl in Hc;
        [|discriminate].
      injection Hc as <-. simpl. rewrite (IH Hts Hes ds eq_refl).
      apply urlsplit_netloc_ok in Hn. subst n.
      now rewrite (encodable_incl (incl_authority s) He).
Qed.

Lemma ranked_printable (domains : list domain) :
  forallb printable domains = true ->
  forall e, In e (firstn 30 (ranking_of domains)) -> printable (fst e) = true.
Proof.
  intros Hp e Hin. apply incl_firstn in Hin.
  rewrite forallb_forall in Hp. apply Hp.
  apply ranking_keys_iff. now apply in_map.
Qed.

(** C4, amended. A failure of the existence check or of reading and parsing
    the file is turned into a single printed line, after which main returns
    normally: always when the file fails to load, and for a missing path
    when standard output can encode the path (it holds no surrogate). Main
    also returns normally on every loaded sequence of well-typed records
    whose [url] strings urlsplit accepts and standard output can encode.
    (Nothing catches an exception raised after the Loader, nor the
    [UnicodeEncodeError] of a print.) *)
Theorem handled_runs_return (rt : runtime) (fs : filesystem) (p : pystr) :
  handled rt fs p ->
  outcome (main rt fs p) = Ok tt
  /\ (loader_fails fs p -> exists line, stdout (main rt fs p) = [line]).
Proof.
  intros H.
  destruct (path_exists fs p) eqn:He.
  2:{ destruct H as [[_ Hp]|[[Ht _]|[Ht _]]]; try congruence.
      rewrite main_missing by assumption. split; [reflexivity|].
      intros _. now eexists. }
  destruct (json_load fs p) as [msg|tabs] eqn:Hl.
  { rewrite (main_load_error rt _ _ He Hl). split; [reflexivity|].
    intros _. now eexists. }
  split.
  - destruct H as [[Hf _]|[[_ [msg Hf]]|[_ (records & Hr & Hwt & Hacc & Hen)]]];
      try congruence.
    rewrite Hl in Hr. injection Hr as ->.
    destruct (comprehension_accepted rt records Hwt Hacc) as [ds Hds].
    pose proof (comprehension_printable rt records Hwt Hen Hds) as Hp.
    rewrite (main_loaded rt _ _ He Hl).
    rewrite (table_stage_ok rt (JList records) Hds).
    unfold outcome. cbn [snd]. apply rows_of_printable.
    now apply ranked_printable.
  - intros [Hf|[_ [msg Hf]]]; congruence.
Qed.

Lemma handled_runs_return_witness :
  handled rt_plain fs_sample tabs_json
  /\ outcome (main rt_plain fs_sample tabs_json) = Ok tt.
Proof.
  assert (H : handled rt_plain fs_sample tabs_json).
  { right; right. split; [reflexivity|].
    exists sample_records. repeat split. }
  split; [exact H|].
  exact (proj1 (@handled_runs_return rt_plain fs_sample tabs_json H)).
Defined.

(** C4 as stated fails: when [tabs.json] holds the number [5] the loop over
    [tabs] raises [TypeError], and when it holds [[{"url": 5}]] the call of
    [urlparse] raises [AttributeError]; on every runtime both exceptions
    leave main uncaught, with nothing printed. *)
Lemma exceptions_after_loading_escape :
  on_every_runtime
    (fun rt =>
       main rt fs_number tabs_json
       = ([EvExists tabs_json; EvLoad tabs_json], Raise TypeError)
       /\ main rt fs_int_url tabs_json
          = ([EvExists tabs_json; EvLoad tabs_json], Raise AttributeError)).
Proof. intros rt. split; reflexivity. Qed.

(** C6, amended. For every path that does not exist main opens no file;
    and when standard output can encode the path (it holds no surrogate),
    main prints exactly the line [Error: File <path> not found.] with the
    path interpolated and returns normally. *)
Theorem missing_file_reported (rt : runtime) (fs : filesystem) (p : pystr) :
  path_exists fs p = false ->
  files_read (main rt fs p) = []
  /\ (encodable p = true ->
      stdout (main rt fs p) = [lit "Error: File " ++ p ++ lit " not found."]
      /\ outcome (main rt fs p) = Ok tt).
Proof.
  intros H. destruct (encodable p) eqn:Hp.
  - rewrite main_missing by assumption. now repeat split.
  - rewrite main_missing_unencodable by assumption.
    split; [reflexivity|discriminate].
Qed.

Lemma missing_file_reported_witness :
  path_exists fs_sample (lit "missing.json") = false
  /\ encodable (lit "missing.json") = true
  /\ files_read (main rt_plain fs_sample (lit "missing.json")) = []
  /\ stdout (main rt_plain fs_sample (lit "missing.json"))
     = [lit "Error: File missing.json not found."]
  /\ outcome (main rt_plain fs_sample (lit "missing.json")) = Ok tt.
Proof.
  split; [reflexivity|]. split; [reflexivity|].
  destruct (@missing_file_reported rt_plain fs_sample (lit "missing.json")
              eq_refl) as [Hread Hline].
  split; [exact Hread|]. exact (Hline eq_refl).
Defined.

(** C6 as stated fails: a path that does not exist and holds the surrogate
    U+DCE9 (an undecodable byte of the command line) cannot be printed. On
    every runtime main then prints nothing and raises [UnicodeEncodeError]
    from the print of line 9, which no handler encloses. *)
Lemma missing_surrogate_path_raises :
  on_every_runtime
    (fun rt =>
       path_exists fs_sample surrogate_path = false
       /\ main rt fs_sample surrogate_path
          = ([EvExists surrogate_path], Raise UnicodeEncodeError)).
Proof. intros rt. split; reflexivity. Qed.

(** C7. For every existing file that cannot be read or whose content is not
    valid JSON, main prints the single line [Error reading JSON: ] followed
    by the message of the exception, returns normally, and prints no
    table. *)
Theorem unreadable_file_reported (rt : runtime) (fs : filesystem)
        (p msg : pystr) :
  path_exists fs p = true ->
  json_load fs p = inl msg ->
  stdout (main rt fs p) = [lit "Error reading JSON: " ++ msg]
  /\ outcome (main rt fs p) = Ok tt
  /\ data_rows (main rt fs p) = [].
Proof.
  intros He Hl. rewrite (main_load_error rt _ _ He Hl). now repeat split.
Qed.

Lemma unreadable_file_reported_witness :
  path_exists fs_invalid tabs_json = true
  /\ stdout (main rt_plain fs_invalid tabs_json)
     = [lit "Error reading JSON: Expecting property name enclosed in double quotes: line 1 column 2 (char 1)"]
  /\ outcome (main rt_plain fs_invalid tabs_json) = Ok tt
  /\ data_rows (main rt_plain fs_invalid tabs_json) = [].
Proof.
  split; [reflexivity|].
  apply (@unreadable_file_reported rt_plain fs_invalid tabs_json);
    reflexivity.
Defined.

(* ===================================================================== *)
(** ** The table *)
(* ===================================================================== *)

Lemma data_rows_at_most_30 (rt : runtime) (fs : filesystem) (p : pystr) :
  length (data_rows (main rt fs p)) <= 30.
Proof.
  destruct (data_rows_main rt fs p) as [->|(tabs & ds & _ & _ & _ & ->)];
    [simpl; lia|].
  eapply Nat.le_trans; [apply rows_of_length|apply firstn_le_length].
Qed.

(** C5, amended. Whenever main extracts the domain sequence, the Ranking
    holds every distinct domain seen, each once (no limit at the aggregation
    stage); the Reporter prints at most 30 data rows however many entries
    the Ranking has; and when there are 30 entries or fewer and every domain
    is a [str] that standard output can encode (a [str] without surrogate),
    it prints exactly one row per ranked entry, in ranking order. *)
Theorem ranking_complete_rows_bounded (rt : runtime) (fs : filesystem)
        (p : pystr) (tabs : json) (domains : list domain) :
  path_exists fs p = true ->
  json_load fs p = inr tabs ->
  extract_domains rt tabs = Ok domains ->
  (forall d, In d (map fst (ranking_of domains)) <-> In d domains)
  /\ NoDup (map fst (ranking_of domains))
  /\ length (data_rows (main rt fs p)) <= 30
  /\ (length (ranking_of domains) <= 30 ->
      forallb printable domains = true ->
      Forall2 (fun row e => format_row (fst e) (snd e) = Ok row)
              (data_rows (main rt fs p)) (ranking_of domains)).
Proof.
  intros He Hl Hx. split; [apply ranking_keys_iff|].
  split; [apply ranking_keys_NoDup|].
  split; [apply data_rows_at_most_30|].
  intros Hlen Hp.
  rewrite (data_rows_table rt fs p He Hl Hx).
  pose proof (rows_of_printable _ (ranked_printable _ Hp)) as [_ Hrows].
  rewrite firstn_all2 in Hrows |- * by exact Hlen. exact Hrows.
Qed.

Lemma ranking_complete_rows_bounded_witness :
  path_exists fs_sample tabs_json = true
  /\ json_load fs_sample tabs_json = inr (JList sample_records)
  /\ extract_domains rt_plain (JList sample_records) = Ok sample_domains
  /\ length (ranking_of sample_domains) <= 30
  /\ forallb printable sample_domains = true
  /\ Forall2 (fun row e => format_row (fst e) (snd e) = Ok row)
             (data_rows (main rt_plain fs_sample tabs_json))
             (ranking_of sample_domains).
Proof.
  split; [reflexivity|]. split; [reflexivity|]. split; [reflexivity|].
  assert (Hlen : length (ranking_of sample_domains) <= 30) by (simpl; lia).
  split; [exact Hlen|]. split; [reflexivity|].
  destruct (@ranking_complete_rows_bounded rt_plain fs_sample tabs_json
              (JList sample_records) sample_domains
              eq_refl eq_refl eq_refl) as (_ & _ & _ & Hrows).
  exact (Hrows Hlen eq_refl).
Defined.

(** C5 as stated fails: when [tabs.json] holds [[{"url": null}]], on every
    runtime the domain sequence is [[b'']] and the Ranking has the single
    entry [(b'', 1)], yet no data row is printed: formatting the [bytes]
    domain raises [TypeError] after the header and the separator. *)
Lemma null_url_row_not_printed :
  on_every_runtime
    (fun rt =>
       extract_domains rt (JList [JDict [(url_key, JNull)]]) = Ok [DBytes []]
       /\ ranking_of [DBytes []] = [(DBytes [], 1%Z)]
       /\ main rt fs_null_url tabs_json
          = ([EvExists tabs_json; EvLoad tabs_json;
              EvPrint header; EvPrint separator], Raise TypeError)).
Proof. intros rt. repeat split. Qed.

(** C8. Every printed data row is the row of one of the first 30 ranked
    entries: its domain, padded on the right with spaces to 40 characters,
    then [ | ], then the decimal count, padded on the right with spaces to
    10 characters. Each width is a minimum: a field is as long as its text
    when the text is longer, and a domain of 40 characters or more is
    printed in full with no padding. *)
Theorem row_layout (rt : runtime) (fs : filesystem) (p row : pystr) :
  In row (data_rows (main rt fs p)) ->
  exists (tabs : json) (domains : list domain) (s : pystr) (count : Z)
         (domain_field count_field : pystr),
    json_load fs p = inr tabs
    /\ extract_domains rt tabs = Ok domains
    /\ In (DStr s, count) (firstn 30 (ranking_of domains))
    /\ row = domain_field ++ lit " | " ++ count_field
    /\ domain_field = s ++ repeat (ch " ") (40 - length s)
    /\ length domain_field = Nat.max 40 (length s)
    /\ (40 <= length s -> domain_field = s)
    /\ count_field
       = str_of_int count ++ repeat (ch " ") (10 - length (str_of_int count))
    /\ length count_field = Nat.max 10 (length (str_of_int count)).
Proof.
  intros Hin.
  destruct (data_rows_main rt fs p) as [H|(tabs & ds & _ & Hl & Hx & H)];
    rewrite H in Hin; [contradiction|].
  apply rows_of_In in Hin. destruct Hin as (s & count & Hentry & ->).
  exists tabs, ds, s, count, (ljust 40 s), (ljust 10 (str_of_int count)).
  split; [exact Hl|]. split; [exact Hx|]. split; [exact Hentry|].
  split; [reflexivity|]. split; [reflexivity|].
  split; [apply ljust_length|]. split; [apply ljust_long|].
  split; [reflexivity|apply ljust_length].
Qed.

Lemma row_layout_witness :
  In (lit "a.com                                    | 2         ")
     (data_rows (main rt_plain fs_sample tabs_json))
  /\ exists (tabs : json) (domains : list domain) (s : pystr) (count : Z)
            (domain_field count_field : pystr),
       json_load fs_sample tabs_json = inr tabs
       /\ extract_domains rt_plain tabs = Ok domains
       /\ In (DStr s, count) (firstn 30 (ranking_of domains))
       /\ lit "a.com                                    | 2         "
          = domain_field ++ lit " | " ++ count_field
       /\ domain_field = s ++ repeat (ch " ") (40 - length s)
       /\ length domain_field = Nat.max 40 (length s)
       /\ (40 <= length s -> domain_field = s)
       /\ count_field
          = str_of_int count ++ repeat (ch " ") (10 - length (str_of_int count))
       /\ length count_field = Nat.max 10 (length (str_of_int count)).
Proof.
  assert (H : In (lit "a.com                                    | 2         ")
                 (data_rows (main rt_plain fs_sample tabs_json))).
  { left. reflexivity. }
  split; [exact H|].
  exact (@row_layout rt_plain fs_sample tabs_json _ H).
Defined.

Lemma comprehension_no_url (rt : runtime) (records : list json) :
  forallb record_without_url records = true ->
  comprehension rt records = Ok [].
Proof.
  induction records as [|t ts IH]; simpl; intros H; [reflexivity|].
  apply andb_true_iff in H. destruct H as [Ht Hts].
  destruct t; simpl in Ht; try discriminate.
  simpl. apply negb_true_iff in Ht. rewrite Ht. now apply IH.
Qed.

(** C10. For every file that loads as a sequence of mappings none of which
    has a [url] key (the empty sequence included), main prints the header
    row ([Domain] padded to 40 characters, [ | ], [Count] padded to 10
    characters), the separator line of 53 [-] characters and nothing else,
    and returns normally. *)
Theorem no_url_prints_empty_table (rt : runtime) (fs : filesystem)
        (p : pystr) (records : list json) :
  path_exists fs p = true ->
  json_load fs p = inr (JList records) ->
  forallb record_without_url records = true ->
  stdout (main rt fs p) = [header; separator]
  /\ outcome (main rt fs p) = Ok tt
  /\ header = lit "Domain" ++ repeat (ch " ") 34 ++ lit " | "
              ++ lit "Count" ++ repeat (ch " ") 5
  /\ separator = repeat (ch "-") 53.
Proof.
  intros He Hl Hno.
  rewrite (main_loaded rt _ _ He Hl).
  rewrite (table_stage_ok rt (JList records) (comprehension_no_url rt _ Hno)).
  now repeat split.
Qed.

Lemma no_url_prints_empty_table_witness :
  path_exists fs_no_urls tabs_json = true
  /\ forallb record_without_url
             [JDict []; JDict [(lit "title", JStr (lit "x"))]] = true
  /\ stdout (main rt_plain fs_no_urls tabs_json)
     = [lit "Domain                                   | Count     ";
        lit "-----------------------------------------------------"]
  /\ outcome (main rt_plain fs_no_urls tabs_json) = Ok tt.
Proof.
  split; [reflexivity|]. split; [reflexivity|].
  destruct (@no_url_prints_empty_table rt_plain fs_no_urls tabs_json
              [JDict []; JDict [(lit "title", JStr (lit "x"))]]
              eq_refl eq_refl eq_refl) as (Hout & Hret & _ & _).
  split; [exact Hout|exact Hret].
Defined.

(* ===================================================================== *)
(** ** Domain Extractor: records that are skipped, values that are refused *)
(* ===================================================================== *)

(** The comprehension works record by record, in order: the domains of a
    concatenation are those of the first part followed by those of the
    second, and the first record that raises decides the exception. *)
Lemma comprehension_app (rt : runtime) (a b : list json) :
  comprehension rt (a ++ b) =
  (da <- comprehension rt a ;; db <- comprehension rt b ;; Ok (da ++ db)).
Proof.
  induction a as [|t a IH]; simpl.
  - destruct (comprehension rt b); reflexivity.
  - destruct (contains url_key t) as [[|]|e]; simpl; try reflexivity;
      [|exact IH].
    destruct (getitem t url_key) as [v|e]; simpl; [|reflexivity].
    destruct (urlparse_netloc rt v) as [d|e]; simpl; [|reflexivity].
    rewrite IH. destruct (comprehension rt a) as [da|e]; simpl; [|reflexivity].
    destruct (comprehension rt b) as [db|e]; reflexivity.
Qed.

Lemma comprehension_raise_after (rt : runtime) (pre post : list json)
      (t : json) (ds : list domain) (e : exception) :
  comprehension rt pre = Ok ds ->
  (forall rest, comprehension rt (t :: rest) = Raise e) ->
  comprehension rt (pre ++ t :: post) = Raise e.
Proof.
  intros Hpre Ht. rewrite comprehension_app, Hpre. cbn [bind].
  now rewrite Ht.
Qed.

Lemma main_extraction_raises (rt : runtime) (fs : filesystem) (p : pystr)
      (tabs : json) (e : exception) :
  path_exists fs p = true ->
  json_load fs p = inr tabs ->
  extract_domains rt tabs = Raise e ->
  main rt fs p = ([EvExists p; EvLoad p], Raise e).
Proof.
  intros He Hl Hx.
  now rewrite (main_loaded rt _ _ He Hl), (table_stage_raise _ _ Hx).
Qed.

Lemma main_no_domains (rt : runtime) (fs : filesystem) (p : pystr)
      (tabs : json) :
  path_exists fs p = true ->
  json_load fs p = inr tabs ->
  extract_domains rt tabs = Ok [] ->
  main rt fs p =
  ([EvExists p; EvLoad p; EvPrint header; EvPrint separator], Ok tt).
Proof.
  intros He Hl Hx.
  now rewrite (main_loaded rt _ _ He Hl), (table_stage_ok _ _ Hx).
Qed.

(** X1. A record that is a mapping without a [url] key contributes nothing:
    wherever it stands among the records, the extracted domains, and with
    them everything main does after loading, are the same as without it. *)
Theorem record_without_url_ignored (rt : runtime) (a b : list json) (t : json) :
  record_without_url t = true ->
  extract_domains rt (JList (a ++ t :: b)) = extract_domains rt (JList (a ++ b))
  /\ table_stage rt (JList (a ++ t :: b)) = table_stage rt (JList (a ++ b)).
Proof.
  intros Ht.
  assert (H : extract_domains rt (JList (a ++ t :: b))
              = extract_domains rt (JList (a ++ b))).
  { unfold extract_domains, iterate. cbn [bind].
    rewrite !comprehension_app.
    replace (comprehension rt (t :: b)) with (comprehension rt b);
      [reflexivity|].
    destruct t; simpl in Ht; try discriminate.
    apply negb_true_iff in Ht. simpl. now rewrite Ht. }
  split; [exact H|]. unfold table_stage. now rewrite H.
Qed.

Lemma record_without_url_ignored_witness :
  record_without_url (JDict [(lit "no_url", JBool true)]) = true
  /\ extract_domains rt_plain
       (JList ([tab "https://a.com/x"]
               ++ JDict [(lit "no_url", JBool true)] :: [tab "https://b.com"]))
     = extract_domains rt_plain
         (JList ([tab "https://a.com/x"] ++ [tab "https://b.com"])).
Proof.
  split; [reflexivity|].
  exact (proj1 (@record_without_url_ignored rt_plain [tab "https://a.com/x"]
                  [tab "https://b.com"] (JDict [(lit "no_url", JBool true)])
                  eq_refl)).
Defined.

(** X2. When the file holds a single scalar at top level ([null], a boolean
    or a number), the loop over [tabs] raises [TypeError]: main raises it
    after loading the file, having printed nothing. *)
Theorem top_level_scalar_raises (rt : runtime) (fs : filesystem) (p : pystr)
        (tabs : json) :
  path_exists fs p = true ->
  json_load fs p = inr tabs ->
  is_scalar tabs = true ->
  main rt fs p = ([EvExists p; EvLoad p], Raise TypeError).
Proof.
  intros He Hl Hs. apply main_extraction_raises with (tabs := tabs);
    try assumption.
  destruct tabs; simpl in Hs; try discriminate; reflexivity.
Qed.

Lemma top_level_scalar_raises_witness :
  path_exists fs_number tabs_json = true
  /\ json_load fs_number tabs_json = inr (JInt 5)
  /\ is_scalar (JInt 5) = true
  /\ main rt_plain fs_number tabs_json
     = ([EvExists tabs_json; EvLoad tabs_json], Raise TypeError).
Proof.
  repeat (split; [reflexivity|]).
  apply (@top_level_scalar_raises rt_plain fs_number tabs_json (JInt 5));
    reflexivity.
Defined.

Lemma single_char_has_no_url (c : char) : str_contains url_key [c] = false.
Proof.
  change url_key with [117; 114; 108]%N.
  cbn [str_contains startswith]. now rewrite andb_false_r.
Qed.

Lemma comprehension_chars (rt : runtime) (s : pystr) :
  comprehension rt (map (fun c => JStr [c]) s) = Ok [].
Proof.
  induction s as [|c s IH]; [reflexivity|].
  simpl map. cbn [comprehension contains bind].
  now rewrite single_char_has_no_url.
Qed.

(** X3. When the file holds a string at top level, whatever the string, the
    loop runs over its characters, none of which contains [url]: main prints
    the header and the separator with no data row and returns normally. *)
Theorem top_level_string_prints_empty_table (rt : runtime) (fs : filesystem)
        (p s : pystr) :
  path_exists fs p = true ->
  json_load fs p = inr (JStr s) ->
  main rt fs p =
  ([EvExists p; EvLoad p; EvPrint header; EvPrint separator], Ok tt).
Proof.
  intros He Hl. apply main_no_domains with (tabs := JStr s); try assumption.
  simpl. apply comprehension_chars.
Qed.

Lemma top_level_string_prints_empty_table_witness :
  path_exists fs_string tabs_json = true
  /\ json_load fs_string tabs_json = inr (JStr (lit "url"))
  /\ main rt_plain fs_string tabs_json
     = ([EvExists tabs_json; EvLoad tabs_json;
         EvPrint header; EvPrint separator], Ok tt).
Proof.
  repeat (split; [reflexivity|]).
  apply (@top_level_string_prints_empty_table rt_plain fs_string tabs_json
           (lit "url")); reflexivity.
Defined.

Lemma comprehension_keys (rt : runtime) (items : list (pystr * json)) :
  comprehension rt (map (fun kv => JStr (fst kv)) items) =
  if existsb (fun kv => str_contains url_key (fst kv)) items
  then Raise TypeError else Ok [].
Proof.
  induction items as [|[k v] items IH]; [reflexivity|].
  simpl map. cbn [comprehension contains bind existsb fst].
  destruct (str_contains url_key k); simpl; [reflexivity|exact IH].
Qed.

(** X4. When the file holds one mapping at top level (a tab outside a list),
    the loop runs over its keys, which are strings: if some key contains
    the text [url], subscripting that key raises [TypeError] and nothing is
    printed; otherwise main prints the empty table and returns normally. No
    domain is ever counted. *)
Theorem top_level_mapping (rt : runtime) (fs : filesystem) (p : pystr)
        (items : list (pystr * json)) :
  path_exists fs p = true ->
  json_load fs p = inr (JDict items) ->
  main rt fs p =
  if existsb (fun kv => str_contains url_key (fst kv)) items
  then ([EvExists p; EvLoad p], Raise TypeError)
  else ([EvExists p; EvLoad p; EvPrint header; EvPrint separator], Ok tt).
Proof.
  intros He Hl.
  pose proof (comprehension_keys rt items) as Hk.
  destruct (existsb (fun kv => str_contains url_key (fst kv)) items).
  - now apply main_extraction_raises with (tabs := JDict items).
  - now apply main_no_domains with (tabs := JDict items).
Qed.

Lemma top_level_mapping_witness :
  path_exists fs_bare_tab tabs_json = true
  /\ json_load fs_bare_tab tabs_json
     = inr (JDict [(url_key, JStr (lit "https://a.com"))])
  /\ main rt_plain fs_bare_tab tabs_json
     = ([EvExists tabs_json; EvLoad tabs_json], Raise TypeError).
Proof.
  repeat (split; [reflexivity|]).
  exact (@top_level_mapping rt_plain fs_bare_tab tabs_json
           [(url_key, JStr (lit "https://a.com"))] eq_refl eq_refl).
Defined.

(** X5. A scalar among the records ([null], a boolean or a number, as in
    [[{...}, 7]]) cannot be tested for [url]: when the records before it
    are extracted without error, main raises [TypeError] after loading,
    having printed nothing, whatever follows. *)
Theorem scalar_record_raises (rt : runtime) (fs : filesystem) (p : pystr)
        (pre post : list json) (t : json) (ds : list domain) :
  path_exists fs p = true ->
  json_load fs p = inr (JList (pre ++ t :: post)) ->
  comprehension rt pre = Ok ds ->
  is_scalar t = true ->
  main rt fs p = ([EvExists p; EvLoad p], Raise TypeError).
Proof.
  intros He Hl Hpre Hs.
  apply main_extraction_raises with (tabs := JList (pre ++ t :: post));
    try assumption.
  unfold extract_domains, iterate. cbn [bind].
  apply comprehension_raise_after with (ds := ds); [exact Hpre|].
  intros rest. destruct t; simpl in Hs; try discriminate; reflexivity.
Qed.

Lemma scalar_record_raises_witness :
  path_exists fs_number_element tabs_json = true
  /\ json_load fs_number_element tabs_json
     = inr (JList ([tab "https://a.com"] ++ JInt 7 :: []))
  /\ comprehension rt_plain [tab "https://a.com"] = Ok [DStr (lit "a.com")]
  /\ is_scalar (JInt 7) = true
  /\ main rt_plain fs_number_element tabs_json
     = ([EvExists tabs_json; EvLoad tabs_json], Raise TypeError).
Proof.
  repeat (split; [reflexivity|]).
  exact (@scalar_record_raises rt_plain fs_number_element tabs_json
           [tab "https://a.com"] [] (JInt 7) [DStr (lit "a.com")]
           eq_refl eq_refl eq_refl eq_refl).
Defined.

Lemma dict_lookup_contains (items : list (pystr * json)) (v : json) :
  dict_lookup url_key items = Some v ->
  contains url_key (JDict items) = Ok true.
Proof.
  intros H. simpl. f_equal. apply dict_lookup_key. now exists v.
Qed.

Lemma urlparse_netloc_true_non_str (rt : runtime) (v : json) :
  is_json_str v = false -> truthy v = true ->
  urlparse_netloc rt v = Raise AttributeError.
Proof.
  intros Hns Ht. destruct v; try discriminate Hns;
    unfold urlparse_netloc; now rewrite Ht.
Qed.

Lemma urlparse_netloc_false_non_str (rt : runtime) (v : json) :
  is_json_str v = false -> truthy v = false ->
  urlparse_netloc rt v = Ok (DBytes []).
Proof.
  intros Hns Ht. destruct v; try discriminate Hns;
    unfold urlparse_netloc; now rewrite Ht.
Qed.

(** X6. A record whose [url] value is not a string and is true ([true], a
    non-zero number, a non-empty list or mapping) makes [urlparse] raise
    [AttributeError]: when the records before it are extracted without
    error, main raises it after loading, having printed nothing. *)
Theorem true_non_string_url_raises (rt : runtime) (fs : filesystem)
        (p : pystr) (pre post : list json) (items : list (pystr * json))
        (v : json) (ds : list domain) :
  path_exists fs p = true ->
  json_load fs p = inr (JList (pre ++ JDict items :: post)) ->
  comprehension rt pre = Ok ds ->
  dict_lookup url_key items = Some v ->
  is_json_str v = false ->
  truthy v = true ->
  main rt fs p = ([EvExists p; EvLoad p], Raise AttributeError).
Proof.
  intros He Hl Hpre Hv Hns Ht.
  apply main_extraction_raises with (tabs := JList (pre ++ JDict items :: post));
    try assumption.
  unfold extract_domains, iterate. cbn [bind].
  apply comprehension_raise_after with (ds := ds); [exact Hpre|].
  intros rest. cbn [comprehension].
  rewrite (dict_lookup_contains _ Hv). cbn [bind getitem]. rewrite Hv.
  cbn [bind]. now rewrite (urlparse_netloc_true_non_str rt _ Hns Ht).
Qed.

Lemma true_non_string_url_raises_witness :
  path_exists fs_true_url tabs_json = true
  /\ json_load fs_true_url tabs_json
     = inr (JList ([tab "https://a.com"] ++ JDict [(url_key, JBool true)] :: []))
  /\ main rt_plain fs_true_url tabs_json
     = ([EvExists tabs_json; EvLoad tabs_json], Raise AttributeError).
Proof.
  repeat (split; [reflexivity|]).
  exact (@true_non_string_url_raises rt_plain fs_true_url tabs_json
           [tab "https://a.com"] [] [(url_key, JBool true)] (JBool true)
           [DStr (lit "a.com")]
           eq_refl eq_refl eq_refl eq_refl eq_refl eq_refl).
Defined.

(** X7. A record whose [url] value is not a string and is false ([null],
    [false], zero, an empty list or mapping) does not raise in the
    Extractor: on every runtime its domain is the empty [bytes] value, so
    that all such records are counted together under one key, apart from the
    empty [str] domain. *)
Theorem false_non_string_url_is_empty_bytes (rt : runtime)
        (items : list (pystr * json)) (v : json) (rest : list json) :
  dict_lookup url_key items = Some v ->
  is_json_str v = false ->
  truthy v = false ->
  comprehension rt (JDict items :: rest) =
  (ds <- comprehension rt rest ;; Ok (DBytes [] :: ds))
  /\ DBytes [] <> DStr [].
Proof.
  intros Hv Hns Ht. split; [|discriminate].
  cbn [comprehension]. rewrite (dict_lookup_contains _ Hv).
  cbn [bind getitem]. rewrite Hv. cbn [bind].
  now rewrite (urlparse_netloc_false_non_str rt _ Hns Ht).
Qed.

Lemma false_non_string_url_is_empty_bytes_witness :
  dict_lookup url_key [(url_key, JList [])] = Some (JList [])
  /\ is_json_str (JList []) = false
  /\ truthy (JList []) = false
  /\ comprehension rt_plain [JDict [(url_key, JList [])]] = Ok [DBytes []].
Proof.
  repeat (split; [reflexivity|]).
  exact (proj1 (@false_non_string_url_is_empty_bytes rt_plain
                  [(url_key, JList [])] (JList []) [] eq_refl eq_refl eq_refl)).
Defined.

Lemma rows_of_not_all_str (entries : list (domain * Z)) :
  (exists e, In e entries /\ is_str (fst e) = false) ->
  (snd (rows_of entries) = Raise TypeError
   \/ snd (rows_of entries) = Raise UnicodeEncodeError)
  /\ length (fst (rows_of entries)) < length entries
  /\ ((forall s c, In (DStr s, c) entries -> encodable s = true) ->
      snd (rows_of entries) = Raise TypeError).
Proof.
  induction entries as [|[d c] l IH]; intros (e & Hin & He);
    [contradiction|].
  destruct d as [s|b].
  - destruct Hin as [<-|Hin]; [discriminate|].
    destruct (IH (ex_intro _ e (conj Hin He))) as (Hr & Hlen & Henc).
    rewrite rows_of_cons_str. destruct (encodable s) eqn:Hs; cbn [fst snd].
    + split; [exact Hr|]. split; [simpl; lia|].
      intros H. apply Henc. intros s' c' Hin'. apply (H s' c'). now right.
    + split; [now right|]. split; [simpl; lia|].
      intros H. rewrite (H s c) in Hs by now left. discriminate.
  - cbn [rows_of fst snd format_row format_domain bind].
    split; [now left|]. split; [simpl; lia|reflexivity].
Qed.

(** X8. A [bytes] domain among the first 30 ranked entries aborts the
    report: whenever main extracts a domain sequence that holds a [bytes]
    value and has 30 distinct domains or fewer, it prints the header, the
    separator and fewer rows than there are ranked entries, then raises.
    It raises [TypeError] when standard output can encode every [str]
    domain; otherwise it raises [TypeError] or [UnicodeEncodeError],
    whichever row fails first. *)
Theorem bytes_domain_aborts_report (rt : runtime) (fs : filesystem)
        (p : pystr) (tabs : json) (domains : list domain) (b : list N) :
  path_exists fs p = true ->
  json_load fs p = inr tabs ->
  extract_domains rt tabs = Ok domains ->
  In (DBytes b) domains ->
  length (ranking_of domains) <= 30 ->
  (outcome (main rt fs p) = Raise TypeError
   \/ outcome (main rt fs p) = Raise UnicodeEncodeError)
  /\ stdout (main rt fs p) = header :: separator :: data_rows (main rt fs p)
  /\ length (data_rows (main rt fs p)) < length (ranking_of domains)
  /\ ((forall s, In (DStr s) domains -> encodable s = true) ->
      outcome (main rt fs p) = Raise TypeError).
Proof.
  intros He Hl Hx Hin Hlen.
  assert (Hbad : exists e, In e (firstn 30 (ranking_of domains))
                           /\ is_str (fst e) = false).
  { rewrite firstn_all2 by exact Hlen.
    apply (proj2 (ranking_keys_iff domains (DBytes b))) in Hin.
    apply in_map_iff in Hin. destruct Hin as (e & Hfst & Hin).
    exists e. split; [exact Hin|]. now rewrite Hfst. }
  destruct (rows_of_not_all_str _ Hbad) as (Hr & Hrows & Henc).
  rewrite (data_rows_table rt fs p He Hl Hx).
  rewrite (main_loaded rt _ _ He Hl), (table_stage_ok _ _ Hx).
  unfold outcome, stdout. cbn [fst snd flat_map app].
  split; [exact Hr|]. split.
  - do 2 f_equal. apply (stdout_prints _ (Ok tt)).
  - split.
    + rewrite firstn_all2 in Hrows |- * by exact Hlen. exact Hrows.
    + intros Hs. apply Henc. intros s c Hsc. apply Hs.
      rewrite firstn_all2 in Hsc by exact Hlen.
      apply ranking_keys_iff. change (DStr s) with (fst (DStr s, c)).
      now apply in_map.
Qed.

Lemma bytes_domain_aborts_report_witness :
  extract_domains rt_plain (JList [tab "https://a.com"; JDict [(url_key, JNull)]])
  = Ok [DStr (lit "a.com"); DBytes []]
  /\ stdout (main rt_plain fs_mixed tabs_json)
     = header :: separator :: data_rows (main rt_plain fs_mixed tabs_json)
  /\ data_rows (main rt_plain fs_mixed tabs_json) = [row_text (lit "a.com") 1]
  /\ outcome (main rt_plain fs_mixed tabs_json) = Raise TypeError.
Proof.
  split; [reflexivity|].
  assert (Hlen : length (ranking_of [DStr (lit "a.com"); DBytes []]) <= 30)
    by (simpl; lia).
  destruct (@bytes_domain_aborts_report rt_plain fs_mixed tabs_json
              (JList [tab "https://a.com"; JDict [(url_key, JNull)]])
              [DStr (lit "a.com"); DBytes []] []
              eq_refl eq_refl eq_refl (or_intror (or_introl eq_refl)) Hlen)
    as (_ & Hout & _ & Hr).
  split; [exact Hout|]. split; [reflexivity|].
  apply Hr. intros s [Hs|[Hs|[]]]; [|discriminate].
  injection Hs as <-. reflexivity.
Defined.

(* ===================================================================== *)
(** ** What a run touches and prints *)
(* ===================================================================== *)

Lemma printed_of_prints (rows : list pystr) :
  flat_map (fun ev => match ev with EvPrint t => [t] | _ => [] end)
           (map EvPrint rows) = rows.
Proof. induction rows as [|x rows IH]; simpl; congruence. Qed.

Lemma table_stage_prints (rt : runtime) (tabs : json) :
  fst (table_stage rt tabs) = map EvPrint (stdout (table_stage rt tabs)).
Proof.
  destruct (extract_domains rt tabs) as [domains|e] eqn:Hx.
  - rewrite (table_stage_ok _ _ Hx). unfold stdout. cbn [fst].
    change (flat_map ?f (EvPrint header :: EvPrint separator :: ?l))
      with (header :: separator :: flat_map f l).
    now rewrite printed_of_prints.
  - now rewrite (table_stage_raise _ _ Hx).
Qed.

Lemma main_trace (rt : runtime) (fs : filesystem) (p : pystr) :
  fst (main rt fs p) =
  EvExists p :: (if path_exists fs p then [EvLoad p] else [])
             ++ map EvPrint (stdout (main rt fs p)).
Proof.
  destruct (path_exists fs p) eqn:He.
  2:{ destruct (encodable p) eqn:Hp;
        [now rewrite main_missing|now rewrite main_missing_unencodable]. }
  destruct (json_load fs p) as [msg|tabs] eqn:Hl;
    [now rewrite (main_load_error rt _ _ He Hl)|].
  rewrite (main_loaded rt _ _ He Hl). cbn [fst app]. do 2 f_equal.
  rewrite table_stage_prints at 1. reflexivity.
Qed.

Lemma prints_touch_nothing (rows : list pystr) :
  flat_map (fun ev => match ev with
                      | EvExists q | EvLoad q => [q]
                      | EvPrint _ => []
                      end) (map EvPrint rows) = [].
Proof. induction rows as [|x rows IH]; [reflexivity|exact IH]. Qed.

Lemma prints_read_nothing (rows : list pystr) :
  flat_map (fun ev => match ev with EvLoad q => [q] | _ => [] end)
           (map EvPrint rows) = [].
Proof. induction rows as [|x rows IH]; [reflexivity|exact IH]. Qed.

(** X9. Every run of main has the same footprint: it tests the existence of
    the given path once and first, it opens the file once if and only if the
    path exists, and everything it does afterwards is printing. No other
    path is tested or opened. *)
Theorem main_footprint (rt : runtime) (fs : filesystem) (p : pystr) :
  fst (main rt fs p)
  = EvExists p :: (if path_exists fs p then [EvLoad p] else [])
               ++ map EvPrint (stdout (main rt fs p))
  /\ files_read (main rt fs p) = (if path_exists fs p then [p] else [])
  /\ paths_touched (main rt fs p)
     = p :: (if path_exists fs p then [p] else []).
Proof.
  split; [apply main_trace|].
  unfold files_read, paths_touched. rewrite main_trace.
  cbn [flat_map app]. rewrite !flat_map_app.
  rewrite prints_touch_nothing, prints_read_nothing, !app_nil_r.
  destruct (path_exists fs p); split; reflexivity.
Qed.

(** X10. The script prints the usage line and touches no file when it is
    given no argument; otherwise it runs main on its first argument, the
    name of the script and any further argument playing no part. In every
    case the only path it tests or opens is that first argument. *)
Theorem script_footprint (rt : runtime) (fs : filesystem) (argv : list pystr) :
  (length argv < 2 -> script rt fs argv = ([EvPrint usage], Ok tt))
  /\ (forall name path more,
        argv = name :: path :: more -> script rt fs argv = main rt fs path)
  /\ (forall q, In q (paths_touched (script rt fs argv)) ->
                nth_error argv 1 = Some q).
Proof.
  split; [|split].
  - intros H. unfold script. apply Nat.ltb_lt in H. rewrite H.
    unfold print, usage. now rewrite encodable_lit.
  - intros name path more ->. reflexivity.
  - intros q Hq. unfold script in Hq.
    destruct argv as [|name [|path more]]; try contradiction.
    cbn [length Nat.ltb Nat.leb nth nth_error] in *.
    unfold paths_touched in Hq. rewrite main_trace in Hq.
    cbn [flat_map app] in Hq. destruct Hq as [<-|Hq]; [reflexivity|].
    rewrite flat_map_app, prints_touch_nothing, app_nil_r in Hq.
    destruct (path_exists fs path); [|contradiction].
    destruct Hq as [<-|[]]. reflexivity.
Qed.

Lemma script_footprint_witness :
  length [lit "tab_stats.py"] < 2
  /\ script rt_plain fs_sample [lit "tab_stats.py"] = ([EvPrint usage], Ok tt)
  /\ script rt_plain fs_sample [lit "tab_stats.py"; tabs_json; lit "more"]
     = main rt_plain fs_sample tabs_json.
Proof.
  assert (H : length [lit "tab_stats.py"] < 2) by (simpl; lia).
  split; [exact H|]. split.
  - exact (proj1 (script_footprint rt_plain fs_sample [lit "tab_stats.py"]) H).
  - exact (proj1 (proj2 (script_footprint rt_plain fs_sample
                           [lit "tab_stats.py"; tabs_json; lit "more"]))
                 _ _ _ eq_refl).
Defined.

(** X11. What main prints has one of three shapes: nothing at all, when
    main raises before its first call of [print] returns (the Extractor
    raises, the header being printed only once every record has been parsed;
    or the path is missing and standard output cannot encode it); the single
    text of a Loader failure, after which main returns normally; or the
    header, the separator and at most 30 data rows. So no run completes more
    than 32 calls of [print], and no data row comes without its header. The
    bound is on calls of [print], each of which writes its text and a line
    feed; a text may itself hold line feeds. *)
Theorem output_shape (rt : runtime) (fs : filesystem) (p : pystr) :
  ((stdout (main rt fs p) = [] /\ exists e, outcome (main rt fs p) = Raise e)
   \/ (exists text, stdout (main rt fs p) = [text]
                    /\ outcome (main rt fs p) = Ok tt
                    /\ loader_fails fs p)
   \/ (stdout (main rt fs p)
       = header :: separator :: data_rows (main rt fs p)
       /\ length (data_rows (main rt fs p)) <= 30))
  /\ length (stdout (main rt fs p)) <= 32.
Proof.
  assert (Hshape :
    (stdout (main rt fs p) = [] /\ exists e, outcome (main rt fs p) = Raise e)
    \/ (exists text, stdout (main rt fs p) = [text]
                     /\ outcome (main rt fs p) = Ok tt
                     /\ loader_fails fs p)
    \/ (stdout (main rt fs p)
        = header :: separator :: data_rows (main rt fs p)
        /\ length (data_rows (main rt fs p)) <= 30)).
  { destruct (path_exists fs p) eqn:He.
    2:{ destruct (encodable p) eqn:Hp.
        - right; left. rewrite main_missing by assumption.
          eexists. repeat split. now left.
        - left. rewrite main_missing_unencodable by assumption.
          split; [reflexivity|now exists UnicodeEncodeError]. }
    destruct (json_load fs p) as [msg|tabs] eqn:Hl.
    { right; left. rewrite (main_load_error rt _ _ He Hl).
      eexists. repeat split. right. split; [exact He|now exists msg]. }
    destruct (extract_domains rt tabs) as [domains|e] eqn:Hx.
    - right; right. split; [|apply data_rows_at_most_30].
      rewrite (data_rows_table rt fs p He Hl Hx).
      rewrite (main_loaded rt _ _ He Hl), (table_stage_ok _ _ Hx).
      unfold stdout. cbn [fst flat_map app]. do 2 f_equal.
      apply (stdout_prints _ (Ok tt)).
    - left. rewrite (main_extraction_raises rt fs p He Hl Hx).
      split; [reflexivity|now exists e]. }
  split; [exact Hshape|].
  destruct Hshape as [[-> _]|[(text & -> & _)|[-> Hlen]]]; simpl; lia.
Qed.

(** X12. On a file that holds a sequence of well-typed records whose [url]
    strings standard output can encode (none holds a surrogate) main is all
    or nothing: either some [url] string is refused by [urlsplit] and main
    raises [ValueError] having printed nothing, or main prints the header,
    the separator and one row for each of the first 30 ranked entries, in
    ranking order, and returns normally. *)
Theorem well_typed_all_or_nothing (rt : runtime) (fs : filesystem)
        (p : pystr) (records : list json) :
  path_exists fs p = true ->
  json_load fs p = inr (JList records) ->
  forallb well_typed_record records = true ->
  forallb url_encodable records = true ->
  main rt fs p = ([EvExists p; EvLoad p], Raise ValueError)
  \/ exists domains,
       extract_domains rt (JList records) = Ok domains
       /\ outcome (main rt fs p) = Ok tt
       /\ stdout (main rt fs p)
          = header :: separator :: data_rows (main rt fs p)
       /\ Forall2 (fun row e => format_row (fst e) (snd e) = Ok row)
                  (data_rows (main rt fs p))
                  (firstn 30 (ranking_of domains)).
Proof.
  intros He Hl Hwt Hen.
  destruct (comprehension rt records) as [domains|e] eqn:Hc.
  - right. exists domains. split; [exact Hc|].
    pose proof (comprehension_printable rt records Hwt Hen Hc) as Hp.
    destruct (rows_of_printable _ (ranked_printable _ Hp)) as [Hr Hrows].
    rewrite (data_rows_table rt fs p (tabs := JList records) He Hl Hc).
    rewrite (main_loaded rt _ _ He Hl).
    rewrite (table_stage_ok rt (JList records) Hc).
    unfold outcome, stdout. cbn [fst snd flat_map app].
    split; [exact Hr|]. split; [|exact Hrows].
    do 2 f_equal. apply (stdout_prints _ (Ok tt)).
  - left. rewrite (well_typed_only_value_error rt records Hwt Hc) in Hc.
    now apply main_extraction_raises with (tabs := JList records).
Qed.

Lemma well_typed_all_or_nothing_witness :
  path_exists fs_open_bracket tabs_json = true
  /\ json_load fs_open_bracket tabs_json = inr (JList [tab "//["])
  /\ forallb well_typed_record [tab "//["] = true
  /\ forallb url_encodable [tab "//["] = true
  /\ (main rt_plain fs_open_bracket tabs_json
      = ([EvExists tabs_json; EvLoad tabs_json], Raise ValueError)
      \/ exists domains,
           extract_domains rt_plain (JList [tab "//["]) = Ok domains
           /\ outcome (main rt_plain fs_open_bracket tabs_json) = Ok tt
           /\ stdout (main rt_plain fs_open_bracket tabs_json)
              = header :: separator
                  :: data_rows (main rt_plain fs_open_bracket tabs_json)
           /\ Forall2 (fun row e => format_row (fst e) (snd e) = Ok row)
                      (data_rows (main rt_plain fs_open_bracket tabs_json))
                      (firstn 30 (ranking_of domains))).
Proof.
  repeat (split; [reflexivity|]).
  exact (@well_typed_all_or_nothing rt_plain fs_open_bracket tabs_json
           [tab "//["] eq_refl eq_refl eq_refl eq_refl).
Defined.

(* ===================================================================== *)
(** ** The Ranking and the rows that show it *)
(* ===================================================================== *)

Lemma ranking_entry_count (domains : list domain) (d : domain) (c : Z) :
  In (d, c) (ranking_of domains) ->
  c = Z.of_nat (count_occ domain_eq_dec domains d).
Proof.
  intros Hin.
  apply (Permutation_in _ (Permutation_sym (ranking_perm domains))) in Hin.
  rewrite <- Counter_get. symmetry.
  apply dict_get_In; [apply Counter_keys_NoDup|exact Hin].
Qed.

(** The ranked entries are the domains seen, each with the number of its
    occurrences. *)
Lemma ranking_entry_iff (domains : list domain) (d : domain) (c : Z) :
  In (d, c) (ranking_of domains) <->
  In d domains /\ c = Z.of_nat (count_occ domain_eq_dec domains d).
Proof.
  split.
  - intros Hin. split; [|now apply ranking_entry_count].
    apply ranking_keys_iff. change d with (fst (d, c)). now apply in_map.
  - intros [Hd ->]. apply (proj2 (ranking_keys_iff domains d)) in Hd.
    apply in_map_iff in Hd. destruct Hd as ([d' c'] & Hfst & Hin).
    simpl in Hfst. subst d'.
    now rewrite <- (ranking_entry_count _ _ _ Hin).
Qed.

Lemma ranking_NoDup (domains : list domain) : NoDup (ranking_of domains).
Proof. eapply NoDup_map_inv, ranking_keys_NoDup. Qed.

Lemma ranking_length (domains : list domain) :
  length (ranking_of domains) = length (nodup domain_eq_dec domains).
Proof.
  rewrite <- (length_map fst). apply Permutation_length.
  apply NoDup_Permutation;
    [apply ranking_keys_NoDup|apply NoDup_nodup|].
  intros d. rewrite ranking_keys_iff. symmetry. apply nodup_In.
Qed.

Lemma strongly_sorted_app_order (A : Type) (R : A -> A -> Prop)
      (l1 l2 : list A) :
  StronglySorted R (l1 ++ l2) ->
  forall x y, In x l1 -> In y l2 -> R x y.
Proof.
  induction l1 as [|a l1 IH]; simpl; intros Hs x y Hx Hy; [contradiction|].
  apply StronglySorted_inv in Hs. destruct Hs as [Hs Ha].
  destruct Hx as [<-|Hx]; [|now apply IH].
  rewrite Forall_forall in Ha. apply Ha. apply in_or_app. now right.
Qed.

Lemma ranking_descending (domains : list domain) :
  StronglySorted (fun a b => (snd b <= snd a)%Z) (ranking_of domains).
Proof. apply sorted_reverse_descending. Qed.

(** X13. The limit of 30 keeps the top of the Ranking. Whenever main
    extracts a sequence of [str] domains that standard output can encode
    (none holds a surrogate), the number of data rows is the number of
    distinct domains, or 30 if there are more, and every ranked entry left
    out has a count no larger than the count of every entry shown. *)
Theorem report_keeps_the_top_30 (rt : runtime) (fs : filesystem) (p : pystr)
        (tabs : json) (domains : list domain) :
  path_exists fs p = true ->
  json_load fs p = inr tabs ->
  extract_domains rt tabs = Ok domains ->
  forallb printable domains = true ->
  length (data_rows (main rt fs p))
  = Nat.min 30 (length (nodup domain_eq_dec domains))
  /\ (forall shown dropped,
        In shown (firstn 30 (ranking_of domains)) ->
        In dropped (skipn 30 (ranking_of domains)) ->
        (snd dropped <= snd shown)%Z).
Proof.
  intros He Hl Hx Hstr. split.
  - rewrite (data_rows_table rt fs p He Hl Hx).
    destruct (rows_of_printable _ (ranked_printable _ Hstr)) as [_ Hrows].
    rewrite (Forall2_length Hrows), length_firstn, ranking_length.
    reflexivity.
  - intros shown dropped Hs Hd.
    apply (strongly_sorted_app_order
             (R := fun a b : domain * Z => (snd b <= snd a)%Z)
             (firstn 30 (ranking_of domains))
             (skipn 30 (ranking_of domains))); try assumption.
    rewrite firstn_skipn. apply ranking_descending.
Qed.

Lemma report_keeps_the_top_30_witness :
  path_exists fs_many tabs_json = true
  /\ json_load fs_many tabs_json = inr (JList many_records)
  /\ extract_domains rt_plain (JList many_records) = Ok many_domains
  /\ forallb printable many_domains = true
  /\ length (nodup domain_eq_dec many_domains) = 31
  /\ length (data_rows (main rt_plain fs_many tabs_json))
     = Nat.min 30 (length (nodup domain_eq_dec many_domains)).
Proof.
  repeat (split; [vm_compute; reflexivity|]).
  apply (@report_keeps_the_top_30 rt_plain fs_many tabs_json
           (JList many_records) many_domains); vm_compute; reflexivity.
Defined.

(** X14. The first data row shows a most frequent domain: whenever main
    extracts a non-empty sequence of [str] domains that standard output can
    encode (none holds a surrogate), its first data row is the row of a
    domain with its number of occurrences, and no domain occurs more
    often. *)
Theorem first_row_is_most_common (rt : runtime) (fs : filesystem)
        (p : pystr) (tabs : json) (domains : list domain) :
  path_exists fs p = true ->
  json_load fs p = inr tabs ->
  extract_domains rt tabs = Ok domains ->
  forallb printable domains = true ->
  domains <> [] ->
  exists s c rows,
    data_rows (main rt fs p) = row_text s c :: rows
    /\ c = Z.of_nat (count_occ domain_eq_dec domains (DStr s))
    /\ forall d, (Z.of_nat (count_occ domain_eq_dec domains d) <= c)%Z.
Proof.
  intros He Hl Hx Hstr Hne.
  pose proof (ranking_descending domains) as Hsorted.
  rewrite (data_rows_table rt fs p He Hl Hx).
  destruct (ranking_of domains) as [|[d0 c0] r] eqn:Hr.
  { destruct domains as [|d ds]; [contradiction|]. exfalso.
    assert (H : In (d, Z.of_nat (count_occ domain_eq_dec (d :: ds) d))
                   (ranking_of (d :: ds)))
      by (apply ranking_entry_iff; split; [now left|reflexivity]).
    rewrite Hr in H. contradiction. }
  assert (Hhead : In (d0, c0) (ranking_of domains))
    by (rewrite Hr; now left).
  apply ranking_entry_iff in Hhead. destruct Hhead as [Hd0 Hc0].
  rewrite forallb_forall in Hstr. apply Hstr in Hd0.
  destruct d0 as [s|b]; [|discriminate]. cbn [printable] in Hd0.
  exists s, c0. change (firstn 30 ((DStr s, c0) :: r))
    with ((DStr s, c0) :: firstn 29 r).
  rewrite rows_of_cons_str, Hd0. cbn [fst].
  exists (fst (rows_of (firstn 29 r))).
  split; [reflexivity|]. split; [exact Hc0|].
  intros d. destruct (in_dec domain_eq_dec d domains) as [Hin|Hout].
  - assert (He' : In (d, Z.of_nat (count_occ domain_eq_dec domains d))
                     (ranking_of domains))
      by (apply ranking_entry_iff; now split).
    rewrite Hr in He'. destruct He' as [He'|He'].
    + injection He' as _ <-. lia.
    + apply StronglySorted_inv in Hsorted. destruct Hsorted as [_ Hall].
      rewrite Forall_forall in Hall. exact (Hall _ He').
  - apply count_occ_not_In with (eq_dec := domain_eq_dec) in Hout.
    rewrite Hout, Hc0. lia.
Qed.

Lemma first_row_is_most_common_witness :
  path_exists fs_sample tabs_json = true
  /\ json_load fs_sample tabs_json = inr (JList sample_records)
  /\ extract_domains rt_plain (JList sample_records) = Ok sample_domains
  /\ forallb printable sample_domains = true
  /\ sample_domains <> []
  /\ exists s c rows,
       data_rows (main rt_plain fs_sample tabs_json) = row_text s c :: rows
       /\ c = Z.of_nat (count_occ domain_eq_dec sample_domains (DStr s))
       /\ forall d,
            (Z.of_nat (count_occ domain_eq_dec sample_domains d) <= c)%Z.
Proof.
  repeat (split; [reflexivity|]).
  assert (Hne : sample_domains <> []) by discriminate.
  split; [exact Hne|].
  exact (@first_row_is_most_common rt_plain fs_sample tabs_json
           (JList sample_records) sample_domains
           eq_refl eq_refl eq_refl eq_refl Hne).
Defined.

(** X15. The order of the tabs decides only the order of ties: the Rankings
    of two domain sequences that are permutations of each other hold the
    same entries, every domain with the same count. *)
Theorem ranking_of_permutation (ds ds' : list domain) :
  Permutation ds ds' -> Permutation (ranking_of ds) (ranking_of ds').
Proof.
  intros Hp. apply NoDup_Permutation; try apply ranking_NoDup.
  intros [d c]. rewrite !ranking_entry_iff.
  rewrite (proj1 (Permutation_count_occ domain_eq_dec ds ds') Hp d).
  split; intros [Hin Hc]; (split; [|exact Hc]).
  - now apply (Permutation_in _ Hp).
  - now apply (Permutation_in _ (Permutation_sym Hp)).
Qed.

Lemma ranking_of_permutation_witness :
  Permutation [DStr (lit "a.com"); DStr (lit "b.com"); DStr (lit "a.com")]
              [DStr (lit "b.com"); DStr (lit "a.com"); DStr (lit "a.com")]
  /\ Permutation
       (ranking_of [DStr (lit "a.com"); DStr (lit "b.com"); DStr (lit "a.com")])
       (ranking_of [DStr (lit "b.com"); DStr (lit "a.com"); DStr (lit "a.com")]).
Proof.
  assert (H : Permutation
                [DStr (lit "a.com"); DStr (lit "b.com"); DStr (lit "a.com")]
                [DStr (lit "b.com"); DStr (lit "a.com"); DStr (lit "a.com")])
    by apply perm_swap.
  split; [exact H|]. exact (@ranking_of_permutation _ _ H).
Defined.

(* ===================================================================== *)
(** ** Domain Extractor: the domain of common URL shapes *)
(* ===================================================================== *)

Lemma char_in_false (c : char) (s : pystr) :
  char_in c s = false <-> ~ In c s.
Proof.
  unfold char_in. split.
  - intros H Hin. assert (E : existsb (N.eqb c) s = true).
    { apply existsb_exists. exists c. split; [exact Hin|apply N.eqb_refl]. }
    congruence.
  - intros H. destruct (existsb (N.eqb c) s) eqn:E; [|reflexivity].
    apply existsb_exists in E. destruct E as (x & Hx & Hcx).
    apply N.eqb_eq in Hcx. subst x. contradiction.
Qed.

Lemma authority_without_slash (url : pystr) :
  char_in (ch "/") url = false -> authority url = [].
Proof.
  intros H. unfold authority.
  destruct (str_eqb (firstn 2 (drop_scheme (sanitize url))) (lit "//")) eqn:E;
    [|reflexivity].
  apply str_eqb_eq in E. exfalso. apply char_in_false in H. apply H.
  apply incl_sanitize, incl_drop_scheme, (@incl_firstn char 2).
  rewrite E. now left.
Qed.

(** X16. A [url] string without any [/] has no authority: on every runtime
    its domain is the empty string. A bare host name such as [example.com]
    is therefore not counted under its name: all such records are counted
    together under the empty domain. *)
Theorem url_without_slash_has_empty_domain (rt : runtime) (url : pystr) :
  char_in (ch "/") url = false ->
  urlparse_netloc rt (JStr url) = Ok (DStr []).
Proof.
  intros H. unfold urlparse_netloc.
  rewrite urlsplit_netloc_plain_authority;
    now rewrite (authority_without_slash _ H).
Qed.

Lemma url_without_slash_has_empty_domain_witness :
  char_in (ch "/") (lit "example.com") = false
  /\ urlparse_netloc rt_plain (JStr (lit "example.com")) = Ok (DStr []).
Proof.
  split; [reflexivity|].
  apply (@url_without_slash_has_empty_domain rt_plain (lit "example.com")).
  reflexivity.
Defined.

Lemma find_app_absent (c : char) (s t : pystr) :
  char_in c s = false ->
  find c (s ++ t) = option_map (Nat.add (length s)) (find c t).
Proof.
  induction s as [|d s IH]; simpl; intros H.
  - destruct (find c t); reflexivity.
  - apply orb_false_iff in H. destruct H as [Hd Hs]. rewrite Hd.
    rewrite (IH Hs). destruct (find c t); reflexivity.
Qed.

Lemma firstn_app_exact (A : Type) (l t : list A) (n : nat) :
  n = length l -> firstn n (l ++ t) = l.
Proof.
  intros ->. rewrite firstn_app, Nat.sub_diag, firstn_all. simpl.
  apply app_nil_r.
Qed.

Lemma skipn_app_exact (A : Type) (l t : list A) (n : nat) :
  n = length l -> skipn n (l ++ t) = t.
Proof.
  intros ->. rewrite skipn_app, Nat.sub_diag, skipn_all. reflexivity.
Qed.

Lemma remove_char_keeps (a : char) (l : pystr) :
  char_in a l = false -> remove_char a l = l.
Proof.
  intros H. unfold remove_char. apply forallb_filter_id.
  apply forallb_forall. intros x Hx. apply negb_true_iff.
  apply N.eqb_neq. intros ->. apply char_in_false in H. contradiction.
Qed.

Lemma remove_char_app (a : char) (l t : pystr) :
  remove_char a (l ++ t) = remove_char a l ++ remove_char a t.
Proof. apply filter_app. Qed.

(** [scheme_chars] holds no colon and none of the characters that [urlsplit]
    removes. *)
Lemma scheme_chars_char_in (c : char) (scheme : pystr) :
  forallb (fun x => char_in x scheme_chars) scheme = true ->
  In c [ch ":"; 9; 13; 10]%N ->
  char_in c scheme = false.
Proof.
  intros Hs Hc. apply char_in_false. intros Hin.
  rewrite forallb_forall in Hs. specialize (Hs c Hin).
  simpl in Hc. destruct Hc as [<-|[<-|[<-|[<-|[]]]]]; vm_compute in Hs;
    discriminate.
Qed.

Lemma not_unsafe_char_in (c : char) (l : pystr) :
  forallb (fun x => negb (is_unsafe_char x)) l = true ->
  In c unsafe_url_bytes_to_remove ->
  char_in c l = false.
Proof.
  intros Hl Hc. apply char_in_false. intros Hin.
  rewrite forallb_forall in Hl. specialize (Hl c Hin).
  apply negb_true_iff in Hl. unfold is_unsafe_char in Hl.
  assert (E : existsb (N.eqb c) unsafe_url_bytes_to_remove = true).
  { apply existsb_exists. exists c. split; [exact Hc|apply N.eqb_refl]. }
  congruence.
Qed.

Lemma not_delim_char_in (c : char) (l : pystr) :
  forallb (fun x => negb (is_netloc_delim x)) l = true ->
  In c [ch "/"; ch "?"; ch "#"] ->
  char_in c l = false.
Proof.
  intros Hl Hc. apply char_in_false. intros Hin.
  rewrite forallb_forall in Hl. specialize (Hl c Hin).
  apply negb_true_iff in Hl. unfold is_netloc_delim in Hl.
  assert (E : existsb (N.eqb c) [ch "/"; ch "?"; ch "#"] = true).
  { apply existsb_exists. exists c. split; [exact Hc|apply N.eqb_refl]. }
  congruence.
Qed.

(** Removing the unsafe characters leaves the head of a text that starts
    with a delimiter in place. *)
Lemma sanitized_tail (rest : pystr) :
  rest = [] \/ (exists c r, rest = c :: r /\ is_netloc_delim c = true) ->
  let rest' := remove_char 10%N (remove_char 13%N (remove_char 9%N rest)) in
  rest' = [] \/ (exists c r, rest' = c :: r /\ In c [ch "/"; ch "?"; ch "#"]).
Proof.
  intros [->|(c & r & -> & Hc)]; [now left|]. right.
  unfold is_netloc_delim in Hc. apply existsb_exists in Hc.
  destruct Hc as (x & Hx & Hcx). apply N.eqb_eq in Hcx. subst x.
  exists c, (remove_char 10%N (remove_char 13%N (remove_char 9%N r))).
  split; [|exact Hx].
  simpl in Hx. destruct Hx as [<-|[<-|[<-|[]]]]; reflexivity.
Qed.

(** The authority of [//host] followed by nothing or by a delimiter. *)
Lemma splitnetloc_host (host rest : pystr) :
  forallb (fun x => negb (is_netloc_delim x)) host = true ->
  rest = [] \/ (exists c r, rest = c :: r /\ In c [ch "/"; ch "?"; ch "#"]) ->
  splitnetloc (lit "//" ++ host ++ rest) = host.
Proof.
  intros Hh Hrest. unfold splitnetloc, slice, find_from.
  change (skipn 2 (lit "//" ++ host ++ rest)) with (host ++ rest).
  cbn [fold_left].
  rewrite !(find_app_absent _ _ rest) by
    (apply (@not_delim_char_in _ host Hh); simpl; tauto).
  change (length (lit "//" ++ host ++ rest)) with (S (S (length (host ++ rest)))).
  rewrite length_app.
  apply firstn_app_exact.
  destruct Hrest as [->|(c & r & -> & Hc)]; [simpl; lia|].
  simpl in Hc. destruct Hc as [<-|[<-|[<-|[]]]]; cbn [find length];
    rewrite ?N.eqb_refl;
    repeat match goal with
           | |- context [N.eqb ?a ?b] =>
               let v := eval vm_compute in (N.eqb a b) in
               change (N.eqb a b) with v
           end;
    cbn iota;
    repeat match goal with
           | |- context [find ?c r] => destruct (find c r)
           end;
    cbn [option_map]; lia.
Qed.

Lemma sanitize_scheme_url (c0 : char) (s' host rest : pystr) :
  is_ascii_alpha c0 = true ->
  forallb (fun x => char_in x scheme_chars) (c0 :: s') = true ->
  forallb (fun x => negb (is_unsafe_char x)) host = true ->
  sanitize ((c0 :: s') ++ lit "://" ++ host ++ rest) =
  (c0 :: s') ++ lit "://" ++ host
  ++ remove_char 10%N (remove_char 13%N (remove_char 9%N rest)).
Proof.
  intros Ha Hs Hh. unfold sanitize.
  assert (Hc0 : c0_control_or_space c0 = false).
  { unfold c0_control_or_space, is_ascii_alpha in *.
    apply N.leb_gt. apply orb_true_iff in Ha.
    destruct Ha as [Ha|Ha]; apply andb_true_iff in Ha; destruct Ha as [Ha _];
      apply N.leb_le in Ha; lia. }
  change ((c0 :: s') ++ lit "://" ++ host ++ rest)
    with (c0 :: (s' ++ lit "://" ++ host ++ rest)).
  cbn [lstrip]. rewrite Hc0.
  change (c0 :: (s' ++ lit "://" ++ host ++ rest))
    with ((c0 :: s') ++ lit "://" ++ (host ++ rest)).
  cbn [fold_left unsafe_url_bytes_to_remove].
  rewrite !remove_char_app.
  rewrite !(@remove_char_keeps _ (c0 :: s')) by
    (apply (@scheme_chars_char_in _ (c0 :: s') Hs); simpl; tauto).
  rewrite !(@remove_char_keeps _ host) by
    (apply (@not_unsafe_char_in _ host Hh); simpl; tauto).
  reflexivity.
Qed.

Lemma drop_scheme_scheme_url (c0 : char) (s' tail : pystr) :
  is_ascii_alpha c0 = true ->
  forallb (fun x => char_in x scheme_chars) (c0 :: s') = true ->
  drop_scheme ((c0 :: s') ++ lit "://" ++ tail) = lit "//" ++ tail.
Proof.
  intros Ha Hs. unfold drop_scheme.
  rewrite find_app_absent by
    (apply (@scheme_chars_char_in _ (c0 :: s') Hs); simpl; tauto).
  change (find (ch ":") (lit "://" ++ tail)) with (Some 0).
  cbn [option_map]. rewrite Nat.add_0_r.
  change (nth 0 ((c0 :: s') ++ lit "://" ++ tail) 0%N) with c0.
  rewrite Ha. rewrite (firstn_app_exact (c0 :: s') _ eq_refl), Hs.
  change (Nat.ltb 0 (length (c0 :: s'))) with true. cbn [andb].
  change ((c0 :: s') ++ lit "://" ++ tail)
    with ((c0 :: s') ++ [ch ":"] ++ (lit "//" ++ tail)).
  rewrite app_assoc. apply skipn_app_exact.
  rewrite length_app. reflexivity.
Qed.

(** X17. The domain of a URL [scheme://host] followed by nothing or by a
    path, a query or a fragment is the host, as written: when the scheme is
    an ASCII letter followed by scheme characters, and the host holds none
    of [/], [?], [#], tab, carriage return and line feed, the authority
    is the host, with its letter case, its port and its user information
    when it has them; and it is the domain counted when the host is made of
    ASCII characters other than square brackets. Nothing after the host has
    any influence. *)
Theorem scheme_url_domain_is_host (rt : runtime) (c0 : char)
        (s' host rest : pystr) :
  is_ascii_alpha c0 = true ->
  forallb (fun x => char_in x scheme_chars) (c0 :: s') = true ->
  forallb (fun x => negb (is_netloc_delim x)) host = true ->
  forallb (fun x => negb (is_unsafe_char x)) host = true ->
  rest = [] \/ (exists c r, rest = c :: r /\ is_netloc_delim c = true) ->
  authority ((c0 :: s') ++ lit "://" ++ host ++ rest) = host
  /\ (forallb plain_char host = true ->
      urlparse_netloc rt (JStr ((c0 :: s') ++ lit "://" ++ host ++ rest))
      = Ok (DStr host)).
Proof.
  intros Ha Hs Hd Hu Hrest.
  assert (Hauth : authority ((c0 :: s') ++ lit "://" ++ host ++ rest) = host).
  { unfold authority.
    rewrite (@sanitize_scheme_url c0 s' host rest Ha Hs Hu).
    rewrite (@drop_scheme_scheme_url c0 s' _ Ha Hs).
    change (firstn 2 (lit "//" ++ ?t)) with (lit "//").
    replace (str_eqb (lit "//") (lit "//")) with true by reflexivity.
    apply splitnetloc_host; [exact Hd|].
    exact (sanitized_tail Hrest). }
  split; [exact Hauth|].
  intros Hp. unfold urlparse_netloc.
  rewrite urlsplit_netloc_plain_authority; rewrite Hauth;
    [reflexivity|exact Hp].
Qed.

Lemma scheme_url_domain_is_host_witness :
  is_ascii_alpha (ch "h") = true
  /\ authority ((ch "h" :: lit "ttps") ++ lit "://"
                ++ lit "User@Example.COM:8443" ++ lit "/a/b?q=1#top")
     = lit "User@Example.COM:8443"
  /\ urlparse_netloc rt_plain
       (JStr (lit "https://User@Example.COM:8443/a/b?q=1#top"))
     = Ok (DStr (lit "User@Example.COM:8443")).
Proof.
  split; [reflexivity|].
  assert (Hrest : lit "/a/b?q=1#top" = []
                  \/ exists c r, lit "/a/b?q=1#top" = c :: r
                                 /\ is_netloc_delim c = true).
  { right. exists (ch "/"), (lit "a/b?q=1#top"). split; reflexivity. }
  destruct (@scheme_url_domain_is_host rt_plain (ch "h") (lit "ttps")
              (lit "User@Example.COM:8443") (lit "/a/b?q=1#top")
              eq_refl eq_refl eq_refl eq_refl Hrest) as [Hauth Hdom].
  split; [exact Hauth|exact (Hdom eq_refl)].
Defined.

(* ===================================================================== *)
(** ** The layout of the table *)
(* ===================================================================== *)

Lemma row_text_length (s : pystr) (c : Z) :
  length (row_text s c)
  = Nat.max 40 (length s) + 3 + Nat.max 10 (length (str_of_int c)).
Proof.
  unfold row_text. rewrite !length_app, !ljust_length. simpl. lia.
Qed.

Lemma row_text_bar (s : pystr) (c : Z) :
  length s <= 40 -> skipn 40 (firstn 43 (row_text s c)) = lit " | ".
Proof.
  intros H. unfold row_text.
  assert (Hl : length (ljust 40 s) = 40) by (rewrite ljust_length; lia).
  rewrite app_assoc, firstn_app.
  rewrite (firstn_all2 (n := 43) (ljust 40 s ++ lit " | "))
    by (rewrite length_app, Hl; simpl; lia).
  rewrite length_app, Hl. change (43 - (40 + length (lit " | "))) with 0.
  rewrite firstn_O, app_nil_r.
  now apply skipn_app_exact.
Qed.

(** X18. The table is aligned: the header and the separator are 53
    characters wide, every data row is at least as wide, and in every data
    row whose domain has at most 40 characters the column bar [ | ] stands
    at characters 40 to 42, where the header has it. *)
Theorem table_is_aligned (rt : runtime) (fs : filesystem) (p row : pystr) :
  In row (data_rows (main rt fs p)) ->
  length header = 53
  /\ length separator = 53
  /\ skipn 40 (firstn 43 header) = lit " | "
  /\ 53 <= length row
  /\ exists s c,
       row = row_text s c
       /\ (length s <= 40 -> skipn 40 (firstn 43 row) = lit " | ").
Proof.
  intros Hin. repeat (split; [reflexivity|]).
  destruct (data_rows_main rt fs p) as [H|(tabs & ds & _ & _ & _ & H)];
    rewrite H in Hin; [contradiction|].
  apply rows_of_In in Hin. destruct Hin as (s & c & _ & ->).
  fold (row_text s c). split.
  - rewrite row_text_length. lia.
  - exists s, c. split; [reflexivity|apply row_text_bar].
Qed.

Lemma table_is_aligned_witness :
  In (lit "a.com                                    | 2         ")
     (data_rows (main rt_plain fs_sample tabs_json))
  /\ 53 <= length (lit "a.com                                    | 2         ")
  /\ skipn 40 (firstn 43 header) = lit " | ".
Proof.
  assert (H : In (lit "a.com                                    | 2         ")
                 (data_rows (main rt_plain fs_sample tabs_json))).
  { left. reflexivity. }
  destruct (@table_is_aligned rt_plain fs_sample tabs_json _ H)
    as (_ & _ & Hbar & Hwide & _).
  split; [exact H|]. split; [exact Hwide|exact Hbar].
Defined.

(** X19. No row shows a zero: every ranked entry has a count of at least 1
    and at most the number of extracted domains. *)
Theorem ranked_counts_are_positive (domains : list domain) (d : domain)
        (c : Z) :
  In (d, c) (ranking_of domains) ->
  (1 <= c <= Z.of_nat (length domains))%Z.
Proof.
  intros Hin. apply ranking_entry_iff in Hin. destruct Hin as [Hd ->].
  apply (count_occ_In domain_eq_dec) in Hd.
  pose proof (count_occ_bound domain_eq_dec d domains). lia.
Qed.

Lemma ranked_counts_are_positive_witness :
  In (DStr (lit "a.com"), 2%Z) (ranking_of sample_domains)
  /\ (1 <= 2 <= Z.of_nat (length sample_domains))%Z.
Proof.
  assert (H : In (DStr (lit "a.com"), 2%Z) (ranking_of sample_domains))
    by (left; reflexivity).
  split; [exact H|]. exact (@ranked_counts_are_positive _ _ _ H).
Defined.
